(** * Bowden wack2 compensation: a shallow embedding of
      [bowden_wack2_compensation.py] and the properties of its
      parse / track / compensate / serialize pipeline.

    Conventions of the embedding.

    - A Python [int] is a [Z]; a Python [float] is an exact rational [Q].
      Rounding error, infinities, NaN and the sign of zero are outside the
      model; everything that depends only on the order of numbers, on
      [min]/[max] and on the control flow is inside it.  [round] is taken
      on the exact value: it agrees with the script's rounding of the
      binary float except where the exact value is a tie ([half_way]),
      and the statements about the hardlimit name the rounded value away
      from such ties only.
    - A Python [str] is a [string]; a character is a code point below 256.
    - [None] is [option]'s [None]; an exception is the [Raise] case of
      [result].
    - The module-level configuration constants of the script are the
      fields of [Config]; [default_config] holds the values of the source.
    - The builtins [int()], [float()] and [repr()] of a float are the
      fields of [PyRuntime]: the theorems hold whatever they do. *)

From Stdlib Require Import ZArith QArith Qabs Lqa Bool List Lia.
From Stdlib Require Import Ascii String.
From Stdlib Require Import Numbers.DecimalString.
Import ListNotations.

Local Open Scope string_scope.
Local Open Scope Z_scope.

(* ------------------------------------------------------------------ *)
(** ** Exceptions *)

Inductive exn : Type :=
| TypeError
| IndexError.

Inductive result (A : Type) : Type :=
| Ok (a : A)
| Raise (e : exn).

Arguments Ok {A} a.
Arguments Raise {A} e.

Definition bind {A B : Type} (m : result A) (k : A -> result B) : result B :=
  match m with
  | Ok a => k a
  | Raise e => Raise e
  end.

Notation "x <- m ;; k" := (bind m (fun x => k))
  (at level 61, m at next level, right associativity).
Notation "' pat <- m ;; k" := (bind m (fun x => let 'pat := x in k))
  (at level 61, pat pattern, m at next level, right associativity).

(* ------------------------------------------------------------------ *)
(** ** Python numbers *)

Module Num.

Inductive number : Type :=
| PyInt (z : Z)
| PyFloat (q : Q).

Definition to_Q (n : number) : Q :=
  match n with
  | PyInt z => inject_Z z
  | PyFloat q => q
  end.

(** [a + b], [a - b], [a * b]: an int when both are ints, a float otherwise. *)
Definition add (a b : number) : number :=
  match a, b with
  | PyInt x, PyInt y => PyInt (x + y)
  | _, _ => PyFloat (to_Q a + to_Q b)
  end.

Definition sub (a b : number) : number :=
  match a, b with
  | PyInt x, PyInt y => PyInt (x - y)
  | _, _ => PyFloat (to_Q a - to_Q b)
  end.

Definition mul (a b : number) : number :=
  match a, b with
  | PyInt x, PyInt y => PyInt (x * y)
  | _, _ => PyFloat (to_Q a * to_Q b)
  end.

(** Unary minus. *)
Definition neg (a : number) : number :=
  match a with
  | PyInt x => PyInt (- x)
  | PyFloat q => PyFloat (- q)
  end.

(** [a / b]: true division, always a float.  The only divisor of the
    script is the literal [180]. *)
Definition truediv (a b : number) : number :=
  PyFloat (to_Q a / to_Q b).

Definition Qltb (p q : Q) : bool :=
  (Qnum p * QDen q <? Qnum q * QDen p)%Z.

(** [a < b] and [a > b]. *)
Definition lt (a b : number) : bool := Qltb (to_Q a) (to_Q b).
Definition gt (a b : number) : bool := Qltb (to_Q b) (to_Q a).

(** [min(a, b)]: [b] when [b < a], else [a]. *)
Definition min (a b : number) : number := if lt b a then b else a.

(** [max(a, b)]: [b] when [b > a], else [a]. *)
Definition max (a b : number) : number := if gt b a then b else a.

Fixpoint pow10 (p : nat) : positive :=
  match p with
  | O => 1%positive
  | S p' => (10 * pow10 p')%positive
  end.

(** Nearest integer, ties to even. *)
Definition round_half_even (q : Q) : Z :=
  let n := Qnum q in
  let d := Z.pos (Qden q) in
  let f := n / d in
  match (2 * (n mod d)) ?= d with
  | Lt => f
  | Gt => f + 1
  | Eq => if Z.even f then f else f + 1
  end.

Definition round_digits (q : Q) (ndigits : nat) : Q :=
  round_half_even (q * inject_Z (Z.pos (pow10 ndigits))) # pow10 ndigits.

(** [round(number, ndigits)]: an int is returned as it is.  A float is
    rounded on its exact value, ties to even; the script rounds the binary
    float, which at an exact decimal tie lies on one side of it. *)
Definition round (n : number) (ndigits : nat) : number :=
  match n with
  | PyInt z => PyInt z
  | PyFloat q => PyFloat (round_digits q ndigits)
  end.

(** [str(z)] for an int. *)
Definition str_int (z : Z) : string :=
  NilZero.string_of_int (Z.to_int z).

End Num.

Import Num.

(* ------------------------------------------------------------------ *)
(** ** Python strings *)

Module Str.

Definition nl : ascii := "010"%char.

(** [str.isspace] on one code point below 256. *)
Definition isspace (c : ascii) : bool :=
  let n := nat_of_ascii c in
  ((9 <=? n) && (n <=? 13) || (28 <=? n) && (n <=? 32)
   || (n =? 133) || (n =? 160))%nat.

Fixpoint rev_onto (s acc : string) : string :=
  match s with
  | EmptyString => acc
  | String c s' => rev_onto s' (String c acc)
  end.

Definition rev (s : string) : string := rev_onto s EmptyString.

Fixpoint lstrip (s : string) : string :=
  match s with
  | EmptyString => EmptyString
  | String c s' => if isspace c then lstrip s' else s
  end.

Fixpoint rstrip (s : string) : string :=
  match s with
  | EmptyString => EmptyString
  | String c s' =>
      match rstrip s' with
      | EmptyString => if isspace c then EmptyString else String c EmptyString
      | r => String c r
      end
  end.

(** [s.strip()] *)
Definition strip (s : string) : string := rstrip (lstrip s).

(** [s.rstrip(c)] for a one-character argument. *)
Fixpoint rstrip_char (c : ascii) (s : string) : string :=
  match s with
  | EmptyString => EmptyString
  | String d s' =>
      match rstrip_char c s' with
      | EmptyString => if Ascii.eqb d c then EmptyString else String d EmptyString
      | r => String d r
      end
  end.

(** [s.startswith(p)] *)
Fixpoint startswith (p s : string) : bool :=
  match p, s with
  | EmptyString, _ => true
  | String c p', String d s' => Ascii.eqb d c && startswith p' s'
  | String _ _, EmptyString => false
  end.

(** [s.endswith(p)] *)
Definition endswith (p s : string) : bool := startswith (rev p) (rev s).

(** [s.replace(c, "")] for a one-character [c]. *)
Fixpoint remove (c : ascii) (s : string) : string :=
  match s with
  | EmptyString => EmptyString
  | String d s' => if Ascii.eqb d c then remove c s' else String d (remove c s')
  end.

(** [s.split(c, 1)]: the part before the first [c], and the part after it
    when there is one. *)
Fixpoint split1 (c : ascii) (s : string) : string * option string :=
  match s with
  | EmptyString => (EmptyString, None)
  | String d s' =>
      if Ascii.eqb d c then (EmptyString, Some s')
      else let (a, b) := split1 c s' in (String d a, b)
  end.

(** [s.split()]: the maximal runs of non-whitespace characters. *)
Fixpoint split_from (s : string) (cur : option string) : list string :=
  match s with
  | EmptyString => match cur with Some w => [w] | None => [] end
  | String c s' =>
      if isspace c then
        match cur with
        | Some w => w :: split_from s' None
        | None => split_from s' None
        end
      else
        split_from s'
          (Some (match cur with
                 | Some w => w ++ String c EmptyString
                 | None => String c EmptyString
                 end))
  end.

Definition split (s : string) : list string := split_from s None.

(** [s[n:]] *)
Fixpoint drop (n : nat) (s : string) : string :=
  match n, s with
  | O, _ => s
  | S n', String _ s' => drop n' s'
  | S _, EmptyString => EmptyString
  end.

(** [s[:n]] *)
Fixpoint take (n : nat) (s : string) : string :=
  match n, s with
  | S n', String c s' => String c (take n' s')
  | _, _ => EmptyString
  end.

Fixpoint repeat (c : ascii) (n : nat) : string :=
  match n with
  | O => EmptyString
  | S n' => String c (repeat c n')
  end.

End Str.

(* ------------------------------------------------------------------ *)
(** ** Configuration and runtime *)

(** The WACK2 variables at the head of the script. *)
Record Config : Type := {
  coefficient_a : number;
  coefficient_b : number;
  coefficient_c : number;
  max_settling_positive : number;
  settling_negative : number;
  settling_positive : number;
  use_for_travel_moves : bool;
  freeze_settle_on_travel : bool;
  force_full_flow : bool;
  adjustment_hardlimit_factor : number;
  remove_width_comments : bool;
  verbose : bool
}.

(** The values the script ships with. *)
Definition default_config : Config := {|
  coefficient_a := PyFloat (-6137273 # 10000000);
  coefficient_b := PyFloat (7144318 # 1000000000);
  coefficient_c := PyFloat (-2054924 # 100000000000);
  max_settling_positive := PyFloat 0;
  settling_negative := PyFloat (1 # 100);
  settling_positive := PyFloat (1 # 100);
  use_for_travel_moves := true;
  freeze_settle_on_travel := false;
  force_full_flow := false;
  adjustment_hardlimit_factor := PyInt 5;
  remove_width_comments := true;
  verbose := false
|}.

(** What the script takes from the Python runtime and the process
    environment: [int(s)] and [float(s)] ([None] for [ValueError]),
    [repr] of a float, and [os.getenv]. *)
Class PyRuntime : Type := {
  int_of_str : string -> option Z;
  float_of_str : string -> option Q;
  repr_float : Q -> string;
  getenv : string -> option string
}.

(* ------------------------------------------------------------------ *)
(** ** Data model *)

(** [class Parameter] *)
Module Param.
Record t : Type := mk { name : string; value : option number }.

(** [Parameter.clone] *)
Definition clone (p : t) : t := mk (name p) (value p).
End Param.

(** [class State] *)
Module State.

Record t : Type := mk {
  X : option number;
  Y : option number;
  Z : option number;
  E : option number;
  F : option number;
  move_is_absolute : bool;
  extrude_is_absolute : bool;
  layer_height : number
}.

(** [State()] with the defaults of [__init__]. *)
Definition init : t :=
  mk None None None None None true true (PyFloat (2 # 10)).

Definition set_X (v : option number) (s : t) : t :=
  mk v (Y s) (Z s) (E s) (F s)
     (move_is_absolute s) (extrude_is_absolute s) (layer_height s).
Definition set_Y (v : option number) (s : t) : t :=
  mk (X s) v (Z s) (E s) (F s)
     (move_is_absolute s) (extrude_is_absolute s) (layer_height s).
Definition set_Z (v : option number) (s : t) : t :=
  mk (X s) (Y s) v (E s) (F s)
     (move_is_absolute s) (extrude_is_absolute s) (layer_height s).
Definition set_E (v : option number) (s : t) : t :=
  mk (X s) (Y s) (Z s) v (F s)
     (move_is_absolute s) (extrude_is_absolute s) (layer_height s).
Definition set_F (v : option number) (s : t) : t :=
  mk (X s) (Y s) (Z s) (E s) v
     (move_is_absolute s) (extrude_is_absolute s) (layer_height s).
Definition set_modes (m e : bool) (s : t) : t :=
  mk (X s) (Y s) (Z s) (E s) (F s) m e (layer_height s).

(** [clone]: a fresh object with the same fields. *)
Definition clone (s : t) : t := s.

End State.

(** [a += b] on two axis values: [TypeError] when either is [None]. *)
Definition iadd (a b : option number) : result number :=
  match a, b with
  | Some x, Some y => Ok (Num.add x y)
  | _, _ => Raise TypeError
  end.

(** [class Gcode] *)
Module Gcode.

Record t : Type := mk {
  command : option string;
  parameters : list Param.t;
  move_is_absolute : bool;
  extrude_is_absolute : bool;
  comment : option string;
  previous_state : option State.t;
  num_line : option nat
}.

(** [Gcode()] with the defaults of [__init__]. *)
Definition init : t := mk None [] true true None None None.

Definition set_command (c : option string) (g : t) : t :=
  mk c (parameters g) (move_is_absolute g) (extrude_is_absolute g)
     (comment g) (previous_state g) (num_line g).
Definition set_parameters (ps : list Param.t) (g : t) : t :=
  mk (command g) ps (move_is_absolute g) (extrude_is_absolute g)
     (comment g) (previous_state g) (num_line g).
Definition set_move_is_absolute (b : bool) (g : t) : t :=
  mk (command g) (parameters g) b (extrude_is_absolute g)
     (comment g) (previous_state g) (num_line g).
Definition set_extrude_is_absolute (b : bool) (g : t) : t :=
  mk (command g) (parameters g) (move_is_absolute g) b
     (comment g) (previous_state g) (num_line g).
Definition set_comment (c : option string) (g : t) : t :=
  mk (command g) (parameters g) (move_is_absolute g) (extrude_is_absolute g)
     c (previous_state g) (num_line g).
Definition set_previous_state (s : option State.t) (g : t) : t :=
  mk (command g) (parameters g) (move_is_absolute g) (extrude_is_absolute g)
     (comment g) s (num_line g).
Definition set_num_line (n : option nat) (g : t) : t :=
  mk (command g) (parameters g) (move_is_absolute g) (extrude_is_absolute g)
     (comment g) (previous_state g) n.

(** [self.command == c] *)
Definition command_is (c : string) (g : t) : bool :=
  match command g with
  | Some s => String.eqb s c
  | None => false
  end.

(** The commands [state] and [read_gcode_file] treat as moves. *)
Definition is_G123 (g : t) : bool :=
  command_is "G1" g || command_is "G2" g || command_is "G3" g.

(** One turn of the [for parameter in self.parameters] loop of [state]. *)
Definition state_parameter (s : State.t) (p : Param.t) : result State.t :=
  let v := Param.value p in
  if String.eqb (Param.name p) "X" then
    if State.move_is_absolute s then Ok (State.set_X v s)
    else x <- iadd (State.X s) v ;; Ok (State.set_X (Some x) s)
  else if String.eqb (Param.name p) "Y" then
    if State.move_is_absolute s then Ok (State.set_Y v s)
    else y <- iadd (State.Y s) v ;; Ok (State.set_Y (Some y) s)
  else if String.eqb (Param.name p) "Z" then
    if State.move_is_absolute s then Ok (State.set_Z v s)
    else z <- iadd (State.Z s) v ;; Ok (State.set_Z (Some z) s)
  else if String.eqb (Param.name p) "E" then
    if State.extrude_is_absolute s then Ok (State.set_E v s)
    else e <- iadd (State.E s) v ;; Ok (State.set_E (Some e) s)
  else if String.eqb (Param.name p) "F" then
    Ok (State.set_F v s)
  else Ok s.

Fixpoint state_parameters (s : State.t) (ps : list Param.t)
  : result State.t :=
  match ps with
  | [] => Ok s
  | p :: ps' => s' <- state_parameter s p ;; state_parameters s' ps'
  end.

(** [Gcode.state]: the machine state after this command. *)
Definition state (cfg : Config) (g : t) : result State.t :=
  let _state :=
    match previous_state g with
    | None =>
        State.set_E (Some (PyInt 0))
          (State.set_Z (Some (PyInt 0))
             (State.set_Y (Some (PyInt 0))
                (State.set_X (Some (PyInt 0)) State.init)))
    | Some ps => State.clone ps
    end in
  _state <-
    (if is_G123 g || (command_is "G0" g && use_for_travel_moves cfg)
     then state_parameters _state (parameters g)
     else Ok _state) ;;
  Ok (State.set_modes (move_is_absolute g) (extrude_is_absolute g) _state).

(** [next(gc for gc in parameters if p(gc), None)] *)
Definition find_param (p : Param.t -> bool) (g : t) : option Param.t :=
  List.find p (parameters g).

Definition has_name (n : string) (p : Param.t) : bool :=
  String.eqb (Param.name p) n.

(** [Gcode.is_xy_movement] *)
Definition is_xy_movement (g : t) : bool :=
  if negb (command_is "G1" g) && negb (command_is "G2" g)
     && negb (command_is "G3" g)
  then false
  else
    let present n p :=
      has_name n p && match Param.value p with Some _ => true | None => false end in
    match find_param (present "X") g, find_param (present "Y") g with
    | None, None => false
    | _, _ => true
    end.

Fixpoint set_first (n : string) (v : option number) (ps : list Param.t)
  : option (list Param.t) :=
  match ps with
  | [] => None
  | p :: ps' =>
      if has_name n p then Some (Param.mk (Param.name p) v :: ps')
      else option_map (cons p) (set_first n v ps')
  end.

(** [Gcode.set_param]: the first parameter of that name gets the value;
    a new parameter is appended when there is none. *)
Definition set_param (n : string) (v : option number) (g : t) : t :=
  match set_first n v (parameters g) with
  | Some ps => set_parameters ps g
  | None => set_parameters (parameters g ++ [Param.mk n v]) g
  end.

(** [Gcode.get_param]: the value of the first parameter of that name,
    [None] when there is none (or when its value is [None]). *)
Definition get_param (n : string) (g : t) : option number :=
  match find_param (has_name n) g with
  | Some p => Param.value p
  | None => None
  end.

(** [Gcode.clone]: a command without a previous state gets a fresh
    [State()]. *)
Definition clone (g : t) : t :=
  let prev_state :=
    match previous_state g with
    | None => State.init
    | Some ps => State.clone ps
    end in
  let gcode :=
    mk (command g) [] (move_is_absolute g) (extrude_is_absolute g)
       (comment g) (Some prev_state) None in
  let gcode :=
    set_parameters (parameters gcode ++ map Param.clone (parameters g)) gcode in
  match num_line g with
  | Some n => set_num_line (Some n) gcode
  | None => gcode
  end.

(** [format(value, ".<precision>f")]: fixed notation with [precision]
    digits after the point, correctly rounded. *)
Definition format_f (q : Q) (precision : nat) : string :=
  let n := round_half_even (q * inject_Z (Z.pos (pow10 precision))) in
  let digits := str_int (Z.abs n) in
  let digits :=
    Str.repeat "0" (S precision - String.length digits) ++ digits in
  let cut := (String.length digits - precision)%nat in
  (if n <? 0 then "-" else "")
  ++ Str.take cut digits
  ++ (match precision with
      | O => ""
      | S _ => "." ++ Str.drop cut digits
      end).

(** [Gcode._format_number] *)
Definition _format_number (number : number) (precision : nat) : string :=
  let value := Num.round number precision in
  let value := format_f (to_Q value) precision in
  let value := Str.rstrip_char "." (Str.rstrip_char "0" value) in
  if Str.startswith "0." value then Str.drop 1 value
  else if Str.startswith "-0." value then "-" ++ Str.drop 2 value
  else value.

Section Serializer.

Context {rt : PyRuntime}.

(** [str(value)] of a number. *)
Definition str_number (n : number) : string :=
  match n with
  | PyInt z => str_int z
  | PyFloat q => repr_float q
  end.

(** One turn of the [for st in self.parameters] loop of [__str__]: the
    text so far and the comment field, which the [E] branch may assign. *)
Definition str_parameter (g : t) (acc : string * option string)
    (st : Param.t) : string * option string :=
  let (string, comment) := acc in
  match Param.value st with
  | None => (string ++ " " ++ Param.name st, comment)
  | Some v =>
      if has_name "X" st || has_name "Y" st || has_name "Z" st then
        (string ++ " " ++ Param.name st ++ _format_number v 3, comment)
      else if has_name "E" st then
        let string := string ++ " " ++ Param.name st ++ _format_number v 5 in
        if negb (is_xy_movement g) then
          match comment with
          | None => (string, Some "")
          | Some c => (string, Some (c ++ ""))
          end
        else (string, comment)
      else
        (string ++ " " ++ Param.name st ++ str_number v, comment)
  end.

(** [Gcode.__str__]: the rendered line, and the object afterwards (its
    comment field may have been assigned). *)
Definition __str__ (g : t) : string * t :=
  let (string, comment) :=
    match command g with
    | Some c => fold_left (str_parameter g) (parameters g) ("" ++ c, comment g)
    | None => ("", comment g)
    end in
  let string :=
    match comment with
    | Some c =>
        if (1 <? String.length c)%nat then
          if String.eqb string "" then string ++ "; " ++ c
          else string ++ " ; " ++ c
        else string
    | None => string
    end in
  (string, set_comment comment g).

End Serializer.

End Gcode.

(* ------------------------------------------------------------------ *)
(** ** Tokenizer *)

Definition is_letter (c : ascii) : bool :=
  let n := nat_of_ascii c in
  ((65 <=? n) && (n <=? 90) || (97 <=? n) && (n <=? 122))%nat.

Definition is_digit (c : ascii) : bool :=
  let n := nat_of_ascii c in
  ((48 <=? n) && (n <=? 57))%nat.

Fixpoint skip_digits (s : string) : string :=
  match s with
  | EmptyString => EmptyString
  | String c s' => if is_digit c then skip_digits s' else s
  end.

(** [validate_gcode_command_string]: [re.match("^[A-Za-z][0-9]+$", s)].
    [$] matches at the end and also just before a final newline. *)
Definition validate_gcode_command_string (s : string) : bool :=
  match s with
  | String c (String d rest) =>
      is_letter c && is_digit d
      && let tail := skip_digits rest in
         (String.eqb tail "" || String.eqb tail (String Str.nl ""))
  | _ => false
  end.

Section Tokenizer.

Context {rt : PyRuntime}.

(** The body of the [for part in gcode_parts[1:]] loop.  [part] comes from
    [split()], so it is not empty and [part[0]] is its first character. *)
Definition parse_parameter (part : string) : Param.t :=
  let name := Str.take 1 part in
  let value := Str.drop 1 part in
  match int_of_str value with
  | Some z => Param.mk name (Some (PyInt z))
  | None =>
      match float_of_str value with
      | Some q => Param.mk name (Some (PyFloat q))
      | None => Param.mk part None
      end
  end.

(** [parse_gcode_line] *)
Definition parse_gcode_line (gcode_line : string) (prev_state : option State.t)
  : result Gcode.t :=
  let gcode := Gcode.init in
  let gcode :=
    match prev_state with
    | Some ps =>
        let gcode := Gcode.set_previous_state (Some (State.clone ps)) gcode in
        let gcode :=
          Gcode.set_extrude_is_absolute (State.extrude_is_absolute ps) gcode in
        Gcode.set_move_is_absolute (State.move_is_absolute ps) gcode
    | None => gcode
    end in
  let gcode_line := Str.strip gcode_line in
  if String.eqb gcode_line "" then Ok gcode
  else if Str.startswith ";" gcode_line
          || Str.startswith (String Str.nl "") gcode_line then
    let gcode_line :=
      if Str.endswith (String Str.nl "") gcode_line
      then Str.take (String.length gcode_line - 1) gcode_line
      else gcode_line in
    Ok (Gcode.set_command (Some (Str.remove Str.nl gcode_line)) gcode)
  else
    let (parts0, parts1) := Str.split1 ";" gcode_line in
    let gcode :=
      match parts1 with
      | Some c =>
          Gcode.set_comment
            (Some (Str.strip (Str.remove ";" (Str.remove Str.nl c)))) gcode
      | None => gcode
      end in
    match Str.split (Str.strip parts0) with
    | [] => Raise IndexError
    | first :: rest =>
        if negb (validate_gcode_command_string first) then
          Ok (Gcode.set_command (Some parts0) gcode)
        else
          let gcode := Gcode.set_command (Some first) gcode in
          Ok (Gcode.set_parameters
                (Gcode.parameters gcode ++ map parse_parameter rest)%list gcode)
    end.

End Tokenizer.

(* ------------------------------------------------------------------ *)
(** ** Compensation and the driver *)

(** [extruder_position_adjustment]; [TypeError] on [None]. *)
Definition extruder_position_adjustment (cfg : Config) (x_position : option number)
  : result number :=
  match x_position with
  | Some x =>
      Ok (Num.add
            (Num.add (coefficient_a cfg) (Num.mul (coefficient_b cfg) x))
            (Num.mul (Num.mul (coefficient_c cfg) x) x))
  | None => Raise TypeError
  end.

(** [x - y] where [y] may be [None]. *)
Definition sub_opt (x : number) (y : option number) : result number :=
  match y with
  | Some y => Ok (Num.sub x y)
  | None => Raise TypeError
  end.

(** An element of the list [read_gcode_file] returns: a [Gcode] object or
    a diagnostic string. *)
Inductive item : Type :=
| ItemGcode (g : Gcode.t)
| ItemStr (s : string).

(** What [layer_height] and [last_layer_height] hold: the environment
    string, [None], or a number. *)
Inductive layer_value : Type :=
| LayerNone
| LayerStr (s : string)
| LayerNum (n : number).

(** The variables of [read_gcode_file] that live across iterations, the
    global [settling_current], and the out-of-bounds warnings printed. *)
Record Loop : Type := mkLoop {
  gcodes : list item;
  layer_height : layer_value;
  last_layer_height : layer_value;
  last_state : option State.t;
  num_line : nat;
  settling_current : number;
  parse_progress : nat;
  warnings : list number
}.

Definition z_height : number := PyFloat 0.

(** The settling update of one move: the new accumulator. *)
Definition settle (cfg : Config) (settling_current x_change : number) : number :=
  if Num.gt x_change (PyInt 0) then
    Num.min
      (Num.add settling_current (Num.mul (settling_positive cfg) x_change))
      (max_settling_positive cfg)
  else if Num.lt x_change (PyInt 0) then
    Num.max
      (Num.add settling_current (Num.mul (settling_negative cfg) x_change))
      (PyInt 0)
  else settling_current.

(** The test that guards the warning. *)
Definition out_of_bounds (cfg : Config) (settling_current : number) : bool :=
  Num.lt settling_current (PyInt 0)
  || Num.gt settling_current (max_settling_positive cfg).

(** [(e_xposition_adjust + settling_current) / 180 * x_change] *)
Definition relative_adjustment (e_xposition_adjust settling_current x_change : number)
  : number :=
  Num.mul
    (Num.truediv (Num.add e_xposition_adjust settling_current) (PyInt 180))
    x_change.

(** The two [min]/[max] lines that limit the adjustment. *)
Definition hardlimit (cfg : Config) (e_adjust_relative e_value : number) : number :=
  let e_adjust_relative :=
    Num.min e_adjust_relative
      (Num.mul e_value (adjustment_hardlimit_factor cfg)) in
  Num.max e_adjust_relative
    (Num.mul (Num.neg e_value) (adjustment_hardlimit_factor cfg)).

(** The two strings appended under [verbose]. *)
Definition verbose_lines (e_xposition_adjust settling_current x_change
                          e_adjust_relative : number) : list item :=
  [ ItemStr (";ABS E adj:" ++ Gcode.format_f (to_Q e_xposition_adjust) 5
             ++ " settl:" ++ Gcode.format_f (to_Q settling_current) 5
             ++ " Δx:" ++ Gcode.format_f (to_Q x_change) 3);
    ItemStr (";REL E adj:" ++ Gcode.format_f (to_Q e_adjust_relative) 5) ].

(** The block under
    [if gcode.previous_state is not None and x_value is not None]:
    the rewritten command, the accumulator, the strings appended to
    [gcodes] and the warnings printed. *)
Definition compensate (cfg : Config) (travel_move : bool) (gcode : Gcode.t)
    (previous_state : State.t) (x_value : number) (e_value : option number)
    (settling_current : number)
  : result (Gcode.t * number * list item * list number) :=
  fx <- extruder_position_adjustment cfg (Some x_value) ;;
  fp <- extruder_position_adjustment cfg (State.X previous_state) ;;
  let e_xposition_adjust := Num.sub fx fp in
  x_change <- sub_opt x_value (State.X previous_state) ;;
  let '(settling_current, warned) :=
    if negb travel_move || negb (freeze_settle_on_travel cfg) then
      let settling_current := settle cfg settling_current x_change in
      (settling_current,
       if out_of_bounds cfg settling_current then [settling_current] else [])
    else (settling_current, []) in
  let e_adjust_relative :=
    relative_adjustment e_xposition_adjust settling_current x_change in
  let '(gcode, e_adjust_relative) :=
    match e_value with
    | Some e =>
        let e_adjust_relative := hardlimit cfg e_adjust_relative e in
        (Gcode.set_param "E"
           (Some (Num.round (Num.add e e_adjust_relative) 5)) gcode,
         e_adjust_relative)
    | None => (gcode, e_adjust_relative)
    end in
  let '(gcode, appended) :=
    match e_value with
    | None =>
        if use_for_travel_moves cfg then
          (Gcode.set_param "E" (Some (Num.round e_adjust_relative 5)) gcode,
           [ItemStr ";TRAVEL"])
        else (gcode, [])
    | Some _ => (gcode, [])
    end in
  let appended :=
    if verbose cfg then
      (appended ++ verbose_lines e_xposition_adjust settling_current x_change
                     e_adjust_relative)%list
    else appended in
  Ok (gcode, settling_current, appended, warned).

Section Driver.

Context {rt : PyRuntime}.

(** The state of [read_gcode_file] before the first line; the global
    [settling_current] starts at [0.00]. *)
Definition loop_init : Loop :=
  let env :=
    match getenv "SLIC3R_layer_height" with
    | Some s => LayerStr s
    | None => LayerNone
    end in
  mkLoop [] env env None 1 (PyFloat 0) 0 [].

(** The mode and flow commands at the head of the loop body. *)
Definition apply_modes (cfg : Config) (gcode : Gcode.t) : Gcode.t :=
  if Gcode.command_is "G90" gcode then Gcode.set_move_is_absolute true gcode
  else if Gcode.command_is "G91" gcode then Gcode.set_move_is_absolute false gcode
  else if Gcode.command_is "M82" gcode then Gcode.set_extrude_is_absolute true gcode
  else if Gcode.command_is "M83" gcode then Gcode.set_extrude_is_absolute false gcode
  else if Gcode.command_is "M221" gcode && force_full_flow cfg
  then Gcode.set_param "S" (Some (PyInt 100)) gcode
  else gcode.

(** The lines the loop leaves with [continue]. *)
Definition skipped (cfg : Config) (gcode : Gcode.t) : bool :=
  match Gcode.command gcode with
  | None => true
  | Some c => remove_width_comments cfg && Str.startswith ";WIDTH" c
  end.

(** "Convert G0 to G1": the command and [travel_move]. *)
Definition convert_travel (cfg : Config) (gcode : Gcode.t) : Gcode.t * bool :=
  if Gcode.command_is "G0" gcode && use_for_travel_moves cfg
  then (Gcode.set_command (Some "G1") gcode, true)
  else (gcode, false).

(** The Z hop check: the new [layer_height] and [last_layer_height]. *)
Definition z_hop (st : Loop) (z_value : option number)
  : layer_value * layer_value :=
  match z_value with
  | Some z =>
      if Num.gt z z_height
      then (LayerNum (Num.sub z_height z_height), layer_height st)
      else (last_layer_height st, last_layer_height st)
  | None => (layer_height st, last_layer_height st)
  end.

(** The compensation of a [G1], [G2] or [G3] command: nothing happens
    without a previous state or without an [X] value. *)
Definition motion (cfg : Config) (travel_move : bool) (gcode : Gcode.t)
    (settling_current : number)
  : result (Gcode.t * number * list item * list number) :=
  let x_value := Gcode.get_param "X" gcode in
  let e_value := Gcode.get_param "E" gcode in
  match Gcode.previous_state gcode, x_value with
  | Some previous_state, Some x =>
      compensate cfg travel_move gcode previous_state x e_value
        settling_current
  | _, _ => Ok (gcode, settling_current, [], [])
  end.

(** One iteration of [for line in lines]. *)
Definition loop_body (cfg : Config) (st : Loop) (line : string) : result Loop :=
  gcode <- parse_gcode_line line (last_state st) ;;
  let gcode := apply_modes cfg gcode in
  if skipped cfg gcode then Ok st
  else
    new_state <- Gcode.state cfg gcode ;;
    let gcode := Gcode.set_num_line (Some (num_line st)) gcode in
    let '(gcode, travel_move) := convert_travel cfg gcode in
    let layers :=
      if Gcode.is_G123 gcode then z_hop st (Gcode.get_param "Z" gcode)
      else (layer_height st, last_layer_height st) in
    '(gcode, settling, appended, warned) <-
      (if Gcode.is_G123 gcode
       then motion cfg travel_move gcode (settling_current st)
       else Ok (gcode, settling_current st, [], [])) ;;
    Ok (mkLoop (gcodes st ++ appended ++ [ItemGcode gcode])%list
          (fst layers) (snd layers)
          (Some new_state)
          (S (num_line st))
          settling
          (S (parse_progress st))
          (warnings st ++ warned)%list).

Fixpoint loop (cfg : Config) (st : Loop) (lines : list string) : result Loop :=
  match lines with
  | [] => Ok st
  | line :: rest => st' <- loop_body cfg st line ;; loop cfg st' rest
  end.

(** The whole pass: the final loop variables. *)
Definition run (cfg : Config) (lines : list string) : result Loop :=
  loop cfg loop_init lines.

(** [read_gcode_file]: the list it returns. *)
Definition read_gcode_file (cfg : Config) (lines : list string)
  : result (list item) :=
  st <- run cfg lines ;; Ok (gcodes st).

(** [str(x)] of an element of the returned list. *)
Definition str_item (i : item) : string :=
  match i with
  | ItemGcode g => fst (Gcode.__str__ g)
  | ItemStr s => s
  end.

(** [main]: the lines written to the output file (each followed by a
    newline). *)
Definition main (cfg : Config) (lines : list string) : result (list string) :=
  gcodes_for_save <- read_gcode_file cfg lines ;;
  Ok (map str_item gcodes_for_save).

(** [re.sub(r"\.gcode$", "", path)]: the pattern matches where the rest
    of the path is [.gcode], or [.gcode] and a final newline. *)
Fixpoint strip_gcode_extension (path : string) : string :=
  match path with
  | EmptyString => EmptyString
  | String c rest =>
      if String.eqb path ".gcode" then EmptyString
      else if String.eqb path (".gcode" ++ String Str.nl "")
      then String Str.nl ""
      else String c (strip_gcode_extension rest)
  end.

(** [destFilePath] of [main]. *)
Definition destination (file_path : string) : string :=
  let destFilePath :=
    match getenv "SLIC3R_PP_OUTPUT_NAME" with
    | Some name => name
    | None => file_path
    end in
  strip_gcode_extension destFilePath ++ "_wack2.gcode".

End Driver.

(* ------------------------------------------------------------------ *)
(** ** A runtime for plain decimal literals

    [int()] and [float()] restricted to what a slicer writes: an optional
    sign, digits, and for a float an optional point and more digits.  It
    is used to run the driver on concrete lines; the general theorems do
    not depend on it. *)

Module Decimal.

Definition digit_value (c : ascii) : Z := Z.of_nat (nat_of_ascii c - 48).

Fixpoint all_digits (s : string) : bool :=
  match s with
  | EmptyString => true
  | String c s' => is_digit c && all_digits s'
  end.

Fixpoint digits_value (acc : Z) (s : string) : Z :=
  match s with
  | EmptyString => acc
  | String c s' => digits_value (10 * acc + digit_value c) s'
  end.

(** The sign of a literal and the rest of it. *)
Definition split_sign (s : string) : bool * string :=
  match s with
  | String "-" s' => (true, s')
  | String "+" s' => (false, s')
  | _ => (false, s)
  end.

Definition parse_int (s : string) : option Z :=
  let (negative, body) := split_sign s in
  if negb (String.eqb body "") && all_digits body then
    let v := digits_value 0 body in
    Some (if negative then - v else v)
  else None.

Definition parse_float (s : string) : option Q :=
  let (negative, body) := split_sign s in
  let (whole, rest) := Str.split1 "." body in
  let fraction := match rest with Some f => f | None => "" end in
  if negb (String.eqb (whole ++ fraction) "")
     && all_digits whole && all_digits fraction then
    let v := digits_value 0 (whole ++ fraction)
             # pow10 (String.length fraction) in
    Some (if negative then - v else v)%Q
  else None.

(** A float printed with the fewest decimals (at least one, at most 17)
    that show it exactly. *)
Fixpoint decimals (q : Q) (p fuel : nat) : nat :=
  match fuel with
  | O => p
  | S fuel' =>
      if Qeq_bool (round_digits q p) q then p else decimals q (S p) fuel'
  end.

Definition print_float (q : Q) : string :=
  Gcode.format_f q (decimals q 1 16).

Definition runtime : PyRuntime := {|
  int_of_str := parse_int;
  float_of_str := parse_float;
  repr_float := print_float;
  getenv := fun _ => None
|}.

End Decimal.

(* ------------------------------------------------------------------ *)
(** * Notions used in the statements *)

(** ** The loop body in two steps *)

(** What the loop does to a command that is not skipped, after
    [last_state] has been computed: numbering, the [G0] conversion and
    the compensation. *)
Definition rewrite_command (cfg : Config) (st : Loop) (gcode : Gcode.t)
  : result (Gcode.t * number * list item * list number) :=
  let gcode := Gcode.set_num_line (Some (num_line st)) gcode in
  let converted := convert_travel cfg gcode in
  if Gcode.is_G123 (fst converted)
  then motion cfg (snd converted) (fst converted) (settling_current st)
  else Ok (fst converted, settling_current st, [], []).

(** The layer variables after a command that is not skipped. *)
Definition layers_after (cfg : Config) (st : Loop) (gcode : Gcode.t)
  : layer_value * layer_value :=
  let gcode := fst (convert_travel cfg (Gcode.set_num_line (Some (num_line st)) gcode)) in
  if Gcode.is_G123 gcode then z_hop st (Gcode.get_param "Z" gcode)
  else (layer_height st, last_layer_height st).

(** The loop variables after a command that is not skipped. *)
Definition advance (cfg : Config) (st : Loop) (gcode : Gcode.t)
    (new_state : State.t) (out : Gcode.t * number * list item * list number)
  : Loop :=
  let '(gcode', settling, appended, warned) := out in
  mkLoop (gcodes st ++ appended ++ [ItemGcode gcode'])%list
    (fst (layers_after cfg st gcode)) (snd (layers_after cfg st gcode))
    (Some new_state) (S (num_line st)) settling
    (S (parse_progress st)) (warnings st ++ warned)%list.

(** The commands [state] and the loop treat as moves under [cfg]. *)
Definition processed (cfg : Config) (g : Gcode.t) : bool :=
  Gcode.is_G123 g || (Gcode.command_is "G0" g && use_for_travel_moves cfg).

(** Numbering and the [G0] conversion of a processed command. *)
Definition converted (cfg : Config) (st : Loop) (g : Gcode.t) : Gcode.t :=
  fst (convert_travel cfg (Gcode.set_num_line (Some (num_line st)) g)).

(** ** The compensation in closed form *)

(** The correction curve on a number. *)
Definition curve (cfg : Config) (x : number) : number :=
  Num.add (Num.add (coefficient_a cfg) (Num.mul (coefficient_b cfg) x))
    (Num.mul (Num.mul (coefficient_c cfg) x) x).

(** The accumulator after a move of [x_change]. *)
Definition settling_after (cfg : Config) (travel : bool) (s x_change : number)
  : number :=
  if negb travel || negb (freeze_settle_on_travel cfg)
  then settle cfg s x_change else s.

(** [e_adjust_relative] before any limit, for a move from [px] to [x]. *)
Definition adjustment (cfg : Config) (travel : bool) (x px s : number) : number :=
  relative_adjustment (Num.sub (curve cfg x) (curve cfg px))
    (settling_after cfg travel s (Num.sub x px)) (Num.sub x px).

(** The warnings printed by a move of [x_change]. *)
Definition warned_after (cfg : Config) (travel : bool) (s x_change : number)
  : list number :=
  if negb travel || negb (freeze_settle_on_travel cfg) then
    if out_of_bounds cfg (settle cfg s x_change)
    then [settle cfg s x_change] else []
  else [].

(** The verbose lines of a move from [px] to [x]. *)
Definition verbose_after (cfg : Config) (travel : bool) (x px s adj : number)
  : list item :=
  if verbose cfg then
    verbose_lines (Num.sub (curve cfg x) (curve cfg px))
      (settling_after cfg travel s (Num.sub x px)) (Num.sub x px) adj
  else [].

(** The exact value lies half-way between two neighbours at [ndigits]
    decimals.  There [round] on the exact value goes to the even
    neighbour, while the script rounds the binary float that stands for
    the value, which lies on one side of the tie. *)
Definition half_way (n : number) (ndigits : nat) : bool :=
  match n with
  | PyInt _ => false
  | PyFloat q =>
      let s := (q * inject_Z (Z.pos (pow10 ndigits)))%Q in
      (2 * (Qnum s mod Z.pos (Qden s)) =? Z.pos (Qden s))%Z
  end.

(** ** The settling invariant *)

(** The accumulator is within its bound. *)
Definition in_bounds (cfg : Config) (s : number) : Prop :=
  (0 <= to_Q s)%Q /\ (to_Q s <= to_Q (max_settling_positive cfg))%Q.

(** The invariant of the loop: the accumulator is within its bound and no
    warning has been printed. *)
Definition settled (cfg : Config) (st : Loop) : Prop :=
  in_bounds cfg (settling_current st) /\ warnings st = [].

(** ** Lines and output elements *)

(** The state given to the tokenizer only fills three fields. *)
Definition attach (prev : option State.t) (g : Gcode.t) : Gcode.t :=
  match prev with
  | Some ps =>
      Gcode.set_move_is_absolute (State.move_is_absolute ps)
        (Gcode.set_extrude_is_absolute (State.extrude_is_absolute ps)
           (Gcode.set_previous_state (Some ps) g))
  | None => g
  end.

(** The elements of the output that are commands. *)
Definition is_command (i : item) : bool :=
  match i with
  | ItemGcode _ => true
  | ItemStr _ => false
  end.

(** The strings the loop inserts. *)
Definition is_diagnostic (s : string) : Prop :=
  s = ";TRAVEL"
  \/ Str.startswith ";ABS E adj:" s = true
  \/ Str.startswith ";REL E adj:" s = true.

(** All strings of a list are diagnostics. *)
Definition diagnostics (cfg : Config) (l : list item) : Prop :=
  forall s, In (ItemStr s) l ->
            is_diagnostic s /\ (verbose cfg = false -> s = ";TRAVEL").



Section Emitted.

Context {rt : PyRuntime}.


End Emitted.

(** ** States *)

(** The state [Gcode.state] starts from when there is no previous one. *)
Definition origin : State.t :=
  State.set_E (Some (PyInt 0))
    (State.set_Z (Some (PyInt 0))
       (State.set_Y (Some (PyInt 0))
          (State.set_X (Some (PyInt 0)) State.init))).

(** Both modes of a state are absolute. *)
Definition absolute (s : State.t) : Prop :=
  State.move_is_absolute s = true /\ State.extrude_is_absolute s = true.







(** ** Rendering in two steps *)

(** The comment as [__str__] shows it: only when longer than one
    character. *)
Definition shown (comment : option string) : option string :=
  match comment with
  | Some c => if (1 <? String.length c)%nat then Some c else None
  | None => None
  end.

(** The end of [__str__]: the comment appended to the text. *)
Definition str_finish (text : string) (comment : option string) : string :=
  match comment with
  | Some c =>
      if (1 <? String.length c)%nat then
        if String.eqb text "" then text ++ "; " ++ c
        else text ++ " ; " ++ c
      else text
  | None => text
  end.

Section Rendering.

Context {rt : PyRuntime}.

(** The loop of [__str__]: the text and the comment field after it. *)
Definition str_loop (g : Gcode.t) (comment : option string)
  : string * option string :=
  match Gcode.command g with
  | Some c =>
      fold_left (Gcode.str_parameter g) (Gcode.parameters g) ("" ++ c, comment)
  | None => ("", comment)
  end.

End Rendering.

(** ** Configurations and inputs of the examples *)

(** A configuration with a positive settling bound (the script's comment
    suggests testing with up to 0.2). *)
Definition settling_config : Config := {|
  coefficient_a := coefficient_a default_config;
  coefficient_b := coefficient_b default_config;
  coefficient_c := coefficient_c default_config;
  max_settling_positive := PyFloat (2 # 10);
  settling_negative := PyFloat (1 # 100);
  settling_positive := PyFloat (1 # 100);
  use_for_travel_moves := true;
  freeze_settle_on_travel := false;
  force_full_flow := false;
  adjustment_hardlimit_factor := PyInt 5;
  remove_width_comments := true;
  verbose := false
|}.

(** The shipped configuration with [verbose] set. *)
Definition verbose_config : Config := {|
  coefficient_a := coefficient_a default_config;
  coefficient_b := coefficient_b default_config;
  coefficient_c := coefficient_c default_config;
  max_settling_positive := max_settling_positive default_config;
  settling_negative := settling_negative default_config;
  settling_positive := settling_positive default_config;
  use_for_travel_moves := true;
  freeze_settle_on_travel := false;
  force_full_flow := false;
  adjustment_hardlimit_factor := PyInt 5;
  remove_width_comments := true;
  verbose := true
|}.


(** The loop variables after [G90] as the first line. *)
Definition after_G90 : Loop :=
  mkLoop
    [ItemGcode (Gcode.mk (Some "G90") [] true true None None (Some 1%nat))]
    LayerNone LayerNone (Some origin) 2 (PyFloat 0) 1 [].

(** [G1 X10 E<e>] as parsed after [G90]. *)
Definition move_to_X10 (e : number) : Gcode.t :=
  Gcode.mk (Some "G1")
    [Param.mk "X" (Some (PyInt 10)); Param.mk "E" (Some e)]
    true true None (Some origin) None.

(** ** Notions of the further properties *)

(** The letters [Gcode.state] tracks as axes. *)
Definition is_axis (n : string) : bool :=
  String.eqb n "X" || String.eqb n "Y" || String.eqb n "Z" || String.eqb n "E".

(** No axis parameter of the list lacks a value. *)
Definition valued_axes (ps : list Param.t) : Prop :=
  forall p, In p ps -> is_axis (Param.name p) = true -> Param.value p <> None.

(** The same, as a test on one parameter. *)
Definition valued_param (p : Param.t) : bool :=
  negb (is_axis (Param.name p))
  || match Param.value p with Some _ => true | None => false end.

(** Every axis of the state is a number. *)
Definition axes_known (s : State.t) : Prop :=
  State.X s <> None /\ State.Y s <> None /\ State.Z s <> None
  /\ State.E s <> None.

(** The same for [last_state], which is [None] before the first command. *)
Definition known_or_first (s : option State.t) : Prop :=
  match s with
  | Some ps => axes_known ps
  | None => True
  end.

Section BareAxes.

Context {rt : PyRuntime}.

(** The line has no axis letter without a value. *)
Definition no_bare_axis (line : string) : bool :=
  match parse_gcode_line line None with
  | Ok g => forallb valued_param (Gcode.parameters g)
  | Raise _ => true
  end.

End BareAxes.

(** A position letter ([X], [Y] or [Z]) without a value. *)
Definition bare_position (p : Param.t) : bool :=
  (String.eqb (Param.name p) "X" || String.eqb (Param.name p) "Y"
   || String.eqb (Param.name p) "Z")
  && match Param.value p with Some _ => false | None => true end.

(** The line index of an output element; a diagnostic string has none. *)
Definition item_num_line (i : item) : option nat :=
  match i with
  | ItemGcode g => Gcode.num_line g
  | ItemStr _ => None
  end.

(** The commands of the output carry the numbers 1, 2, ... and the loop
    counters agree with them. *)
Definition numbered (st : Loop) : Prop :=
  let k := List.length (filter is_command (gcodes st)) in
  map item_num_line (filter is_command (gcodes st)) = map Some (seq 1 k)
  /\ num_line st = S k
  /\ parse_progress st = k.

(** What holds of every command of the output. *)
Definition well_formed_output (cfg : Config) (g : Gcode.t) : Prop :=
  exists c,
    Gcode.command g = Some c
    /\ (use_for_travel_moves cfg = true -> c <> "G0")
    /\ (remove_width_comments cfg = true -> Str.startswith ";WIDTH" c = false).

(** A configuration that freezes the settling on travel moves. *)
Definition frozen_config : Config := {|
  coefficient_a := coefficient_a default_config;
  coefficient_b := coefficient_b default_config;
  coefficient_c := coefficient_c default_config;
  max_settling_positive := PyFloat (2 # 10);
  settling_negative := PyFloat (1 # 100);
  settling_positive := PyFloat (1 # 100);
  use_for_travel_moves := true;
  freeze_settle_on_travel := true;
  force_full_flow := false;
  adjustment_hardlimit_factor := PyInt 5;
  remove_width_comments := true;
  verbose := false
|}.

(** The shipped configuration with [force_full_flow] set. *)
Definition full_flow_config : Config := {|
  coefficient_a := coefficient_a default_config;
  coefficient_b := coefficient_b default_config;
  coefficient_c := coefficient_c default_config;
  max_settling_positive := max_settling_positive default_config;
  settling_negative := settling_negative default_config;
  settling_positive := settling_positive default_config;
  use_for_travel_moves := true;
  freeze_settle_on_travel := false;
  force_full_flow := true;
  adjustment_hardlimit_factor := PyInt 5;
  remove_width_comments := true;
  verbose := false
|}.

(* ------------------------------------------------------------------ *)
(** * Properties *)

(** ** Numbers *)

Lemma Qltb_lt (p q : Q) : Qltb p q = true <-> (p < q)%Q.
Proof. unfold Qltb, Qlt. apply Z.ltb_lt. Qed.

Lemma Qltb_ge (p q : Q) : Qltb p q = false <-> (q <= p)%Q.
Proof. unfold Qltb, Qle. rewrite Z.ltb_ge. reflexivity. Qed.

Lemma to_Q_add (a b : number) : (to_Q (Num.add a b) == to_Q a + to_Q b)%Q.
Proof.
  destruct a, b; simpl; try reflexivity; unfold Qeq; simpl; lia.
Qed.

Lemma to_Q_sub (a b : number) : (to_Q (Num.sub a b) == to_Q a - to_Q b)%Q.
Proof.
  destruct a, b; simpl; try reflexivity; unfold Qeq; simpl; lia.
Qed.

Lemma to_Q_mul (a b : number) : (to_Q (Num.mul a b) == to_Q a * to_Q b)%Q.
Proof.
  destruct a, b; simpl; try reflexivity; unfold Qeq; simpl; lia.
Qed.

Lemma to_Q_neg (a : number) : (to_Q (Num.neg a) == - to_Q a)%Q.
Proof.
  destruct a; simpl; try reflexivity; unfold Qeq; simpl; lia.
Qed.

(** [min] and [max] return one of their arguments, the right one. *)
Lemma min_spec (a b : number) :
  (Num.min a b = b /\ (to_Q b < to_Q a)%Q)
  \/ (Num.min a b = a /\ (to_Q a <= to_Q b)%Q).
Proof.
  unfold Num.min, Num.lt. destruct (Qltb (to_Q b) (to_Q a)) eqn:H.
  - left. split; [reflexivity | now apply Qltb_lt].
  - right. split; [reflexivity | now apply Qltb_ge].
Qed.

Lemma max_spec (a b : number) :
  (Num.max a b = b /\ (to_Q a < to_Q b)%Q)
  \/ (Num.max a b = a /\ (to_Q b <= to_Q a)%Q).
Proof.
  unfold Num.max, Num.gt. destruct (Qltb (to_Q a) (to_Q b)) eqn:H.
  - left. split; [reflexivity | now apply Qltb_lt].
  - right. split; [reflexivity | now apply Qltb_ge].
Qed.

(** ** The settling accumulator *)

Section Settling.

Variable cfg : Config.
Hypothesis positive_rate : (0 <= to_Q (settling_positive cfg))%Q.
Hypothesis negative_rate : (0 <= to_Q (settling_negative cfg))%Q.
Hypothesis bound : (0 <= to_Q (max_settling_positive cfg))%Q.

Lemma settle_in_bounds (s x_change : number) :
  in_bounds cfg s -> in_bounds cfg (settle cfg s x_change).
Proof.
  intros [Hlo Hhi]. unfold settle, Num.gt, Num.lt. simpl to_Q.
  destruct (Qltb (inject_Z 0) (to_Q x_change)) eqn:Hpos.
  - apply Qltb_lt in Hpos.
    assert (Hsum : (0 <= to_Q (Num.add s (Num.mul (settling_positive cfg) x_change)))%Q).
    { rewrite to_Q_add, to_Q_mul.
      apply Qle_trans with (0 + 0)%Q; [apply Qle_refl |].
      apply Qplus_le_compat; [assumption |].
      apply Qmult_le_0_compat; [assumption | now apply Qlt_le_weak]. }
    destruct (min_spec (Num.add s (Num.mul (settling_positive cfg) x_change))
                (max_settling_positive cfg)) as [[-> _] | [-> Hle]].
    + split; [assumption | apply Qle_refl].
    + split; assumption.
  - destruct (Qltb (to_Q x_change) (inject_Z 0)) eqn:Hneg.
    + apply Qltb_lt in Hneg.
      assert (Hsum : (to_Q (Num.add s (Num.mul (settling_negative cfg) x_change))
                      <= to_Q s)%Q).
      { rewrite to_Q_add, to_Q_mul.
        apply Qle_trans with (to_Q s + 0)%Q.
        - apply Qplus_le_compat; [apply Qle_refl |].
          assert (H : (0 <= to_Q (settling_negative cfg) * (- to_Q x_change))%Q).
          { apply Qmult_le_0_compat; [assumption |].
            apply (Qopp_le_compat (to_Q x_change) 0).
            now apply Qlt_le_weak. }
          apply (Qopp_le_compat 0) in H.
          eapply Qle_trans; [| exact H].
          apply Qle_lteq. right. ring.
        - apply Qle_lteq. right. ring. }
      destruct (max_spec (Num.add s (Num.mul (settling_negative cfg) x_change))
                  (PyInt 0)) as [[-> _] | [-> Hle]].
      * split; [apply Qle_refl | exact bound].
      * split; [exact Hle | eapply Qle_trans; eassumption].
    + split; assumption.
Qed.

Lemma in_bounds_no_warning (s : number) :
  in_bounds cfg s -> out_of_bounds cfg s = false.
Proof.
  intros [Hlo Hhi]. unfold out_of_bounds, Num.lt, Num.gt.
  apply orb_false_iff. split; apply Qltb_ge; assumption.
Qed.

End Settling.

(** ** The loop body, taken apart *)

Ltac break_result H :=
  match type of H with
  | bind ?m _ = Ok _ =>
      let E := fresh "E" in destruct m eqn:E; simpl in H; [| discriminate H]
  end.

Section LoopBody.

Context {rt : PyRuntime}.

(** The tokenizer hands the state it was given to the command. *)
Lemma parse_previous_state (line : string) (prev : option State.t) (g : Gcode.t) :
  parse_gcode_line line prev = Ok g -> Gcode.previous_state g = prev.
Proof.
  unfold parse_gcode_line. intros H.
  repeat match type of H with
         | context [if ?b then _ else _] => destruct b
         | context [match ?x with _ => _ end] => destruct x
         end;
    inversion H; reflexivity.
Qed.

(** [loop_body], as an equation. *)
Lemma loop_body_eq (cfg : Config) (st : Loop) (line : string) :
  loop_body cfg st line =
  (gcode <- parse_gcode_line line (last_state st) ;;
   let gcode := apply_modes cfg gcode in
   if skipped cfg gcode then Ok st
   else
     new_state <- Gcode.state cfg gcode ;;
     out <- rewrite_command cfg st gcode ;;
     Ok (advance cfg st gcode new_state out)).
Proof.
  unfold loop_body, rewrite_command, advance, layers_after.
  destruct (parse_gcode_line line (last_state st)) as [g |]; [| reflexivity].
  simpl. destruct (skipped cfg (apply_modes cfg g)); [reflexivity |].
  destruct (Gcode.state cfg (apply_modes cfg g)); [| reflexivity].
  simpl.
  destruct (convert_travel cfg
              (Gcode.set_num_line (Some (num_line st)) (apply_modes cfg g)))
    as [g1 travel].
  simpl. destruct (Gcode.is_G123 g1).
  - destruct (motion cfg travel g1 (settling_current st)) as [[[[? ?] ?] ?] |];
      reflexivity.
  - reflexivity.
Qed.

(** Every successful iteration is of one of two kinds. *)
Lemma loop_body_inv (cfg : Config) (st st' : Loop) (line : string) :
  loop_body cfg st line = Ok st' ->
  exists g,
    parse_gcode_line line (last_state st) = Ok g
    /\ ((skipped cfg (apply_modes cfg g) = true /\ st' = st)
        \/ (skipped cfg (apply_modes cfg g) = false
            /\ exists new_state out,
                Gcode.state cfg (apply_modes cfg g) = Ok new_state
                /\ rewrite_command cfg st (apply_modes cfg g) = Ok out
                /\ st' = advance cfg st (apply_modes cfg g) new_state out)).
Proof.
  rewrite loop_body_eq. intros H.
  break_result H. exists a. split; [reflexivity |].
  destruct (skipped cfg (apply_modes cfg a)) eqn:Hs.
  - left. split; [reflexivity |]. now inversion H.
  - right. split; [reflexivity |].
    break_result H. break_result H.
    exists a0, a1. repeat split. now inversion H.
Qed.

(** The accumulator and the warnings after the compensation block. *)
Lemma compensate_settling (cfg : Config) (travel : bool) (g g' : Gcode.t)
    (ps : State.t) (x : number) (e : option number) (s s' : number)
    (app : list item) (w : list number) :
  compensate cfg travel g ps x e s = Ok (g', s', app, w) ->
  (s' = s /\ w = [])
  \/ (exists x_change,
         s' = settle cfg s x_change
         /\ w = if out_of_bounds cfg s' then [s'] else []).
Proof.
  unfold compensate. intros H.
  break_result H. break_result H. break_result H.
  destruct (negb travel || negb (freeze_settle_on_travel cfg)).
  - right. exists a1.
    destruct e; destruct (use_for_travel_moves cfg); destruct (verbose cfg);
      inversion H; subst; split; reflexivity.
  - left.
    destruct e; destruct (use_for_travel_moves cfg); destruct (verbose cfg);
      inversion H; subst; split; reflexivity.
Qed.

Lemma rewrite_command_settling (cfg : Config) (st : Loop) (g g' : Gcode.t)
    (s' : number) (app : list item) (w : list number) :
  rewrite_command cfg st g = Ok (g', s', app, w) ->
  (s' = settling_current st /\ w = [])
  \/ (exists x_change,
         s' = settle cfg (settling_current st) x_change
         /\ w = if out_of_bounds cfg s' then [s'] else []).
Proof.
  unfold rewrite_command, motion. intros H.
  repeat match type of H with
         | context [if ?b then _ else _] => destruct b
         | context [match ?x with _ => _ end] => destruct x
         end;
    try (inversion H; subst; left; split; reflexivity).
  eapply compensate_settling; eassumption.
Qed.

End LoopBody.

(** ** C1: the settling accumulator stays within its bound *)

Section SettlingInvariant.

Context {rt : PyRuntime}.
Variable cfg : Config.
Hypothesis positive_rate : (0 <= to_Q (settling_positive cfg))%Q.
Hypothesis negative_rate : (0 <= to_Q (settling_negative cfg))%Q.
Hypothesis bound : (0 <= to_Q (max_settling_positive cfg))%Q.

Lemma loop_body_settled (st st' : Loop) (line : string) :
  settled cfg st -> loop_body cfg st line = Ok st' -> settled cfg st'.
Proof.
  intros [Hb Hw] H.
  apply loop_body_inv in H.
  destruct H as (g & _ & [[_ ->] | (_ & ns & out & _ & Hout & ->)]).
  - split; assumption.
  - destruct out as [[[g' s'] app] w].
    apply rewrite_command_settling in Hout.
    unfold settled, advance. simpl.
    destruct Hout as [[-> ->] | (xc & -> & ->)].
    + rewrite app_nil_r. split; assumption.
    + assert (Hin : in_bounds cfg (settle cfg (settling_current st) xc))
        by now apply settle_in_bounds.
      rewrite (in_bounds_no_warning cfg _ Hin), app_nil_r.
      split; assumption.
Qed.

Lemma loop_settled (lines : list string) (st st' : Loop) :
  settled cfg st -> loop cfg st lines = Ok st' -> settled cfg st'.
Proof.
  revert st. induction lines as [| line rest IH]; simpl; intros st Hst H.
  - inversion H. subst. exact Hst.
  - break_result H. eapply IH; [| exact H].
    eapply loop_body_settled; eassumption.
Qed.

End SettlingInvariant.

(** C1.  With non-negative [settling_positive], [settling_negative] and
    [max_settling_positive], and the accumulator starting at 0, after the
    pass over any list of lines the accumulator lies in
    [[0, max_settling_positive]] and the out-of-bounds warning has never
    been printed. *)
Theorem settling_current_within_bound {rt : PyRuntime} (cfg : Config)
    (lines : list string) (st : Loop) :
  (0 <= to_Q (settling_positive cfg))%Q ->
  (0 <= to_Q (settling_negative cfg))%Q ->
  (0 <= to_Q (max_settling_positive cfg))%Q ->
  run cfg lines = Ok st ->
  (0 <= to_Q (settling_current st))%Q
  /\ (to_Q (settling_current st) <= to_Q (max_settling_positive cfg))%Q
  /\ warnings st = [].
Proof.
  intros Hp Hn Hb H.
  assert (Hs : settled cfg st).
  { eapply loop_settled; try eassumption.
    split; [split |]; simpl; [apply Qle_refl | exact Hb | reflexivity]. }
  destruct Hs as [[Hlo Hhi] Hw]. auto.
Qed.

Lemma settling_current_within_bound_witness :
  exists st,
    run (rt := Decimal.runtime) settling_config
      ["G90"; "G1 X50 E1"; "G1 X20 E1"; "G1 X0"; "G0 X100"] = Ok st
    /\ (0 <= to_Q (settling_current st))%Q
    /\ (to_Q (settling_current st) <= to_Q (max_settling_positive settling_config))%Q
    /\ warnings st = [].
Proof.
  eexists. split.
  - vm_compute. reflexivity.
  - apply (settling_current_within_bound (rt := Decimal.runtime) settling_config
             ["G90"; "G1 X50 E1"; "G1 X20 E1"; "G1 X0"; "G0 X100"]).
    + vm_compute. discriminate.
    + vm_compute. discriminate.
    + vm_compute. discriminate.
    + vm_compute. reflexivity.
Defined.

(** ** The tokenizer never raises *)

Lemma lstrip_head (s r : string) (c : ascii) :
  Str.lstrip s = String c r -> Str.isspace c = false.
Proof.
  induction s as [| d s IH]; simpl; [discriminate |].
  destruct (Str.isspace d) eqn:Hd; [exact IH |].
  intros H. inversion H. subst. exact Hd.
Qed.

Lemma rstrip_cons (c : ascii) (s : string) :
  Str.isspace c = false -> Str.rstrip (String c s) = String c (Str.rstrip s).
Proof.
  intros Hc. simpl. rewrite Hc. destruct (Str.rstrip s); reflexivity.
Qed.

Lemma strip_cases (line : string) :
  Str.strip line = ""
  \/ exists c r, Str.strip line = String c r /\ Str.isspace c = false.
Proof.
  unfold Str.strip. destruct (Str.lstrip line) as [| c r] eqn:H.
  - left. reflexivity.
  - right. pose proof (lstrip_head _ _ _ H) as Hc.
    exists c, (Str.rstrip r). split; [now apply rstrip_cons | exact Hc].
Qed.

Lemma split_from_some (s w : string) : Str.split_from s (Some w) <> [].
Proof.
  revert w. induction s as [| c s IH]; simpl; intros w.
  - discriminate.
  - destruct (Str.isspace c); [discriminate | apply IH].
Qed.

Lemma split1_cons (c d : ascii) (s : string) :
  Ascii.eqb d c = false ->
  exists a b, Str.split1 c (String d s) = (String d a, b).
Proof.
  intros H. simpl. rewrite H. destruct (Str.split1 c s) as [a b].
  now exists a, b.
Qed.

Lemma startswith_char (c d : ascii) (s : string) :
  Str.startswith (String c "") (String d s) = Ascii.eqb d c.
Proof.
  simpl. apply andb_true_r.
Qed.

Section TokenizerFacts.

Context {rt : PyRuntime}.

Lemma parse_attach (line : string) (prev : option State.t) :
  parse_gcode_line line prev =
  (g <- parse_gcode_line line None ;; Ok (attach prev g)).
Proof.
  unfold parse_gcode_line.
  destruct prev as [ps |];
    repeat match goal with
           | |- context [if ?b then _ else _] => destruct b
           | |- context [match ?x with _ => _ end] => destruct x
           end;
    reflexivity.
Qed.

Lemma parse_total (line : string) (prev : option State.t) :
  exists g, parse_gcode_line line prev = Ok g.
Proof.
  unfold parse_gcode_line.
  destruct (strip_cases line) as [-> | (c & r & -> & Hc)].
  - simpl. eauto.
  - replace (String.eqb (String c r) "") with false by reflexivity.
    rewrite !startswith_char.
    destruct (Ascii.eqb c ";" || Ascii.eqb c Str.nl) eqn:Hsemi; [eauto |].
    apply orb_false_iff in Hsemi. destruct Hsemi as [Hsemi _].
    destruct (split1_cons ";" c r Hsemi) as (a & b & ->).
    unfold Str.strip. simpl Str.lstrip. rewrite Hc, (rstrip_cons c a Hc).
    unfold Str.split. simpl Str.split_from. rewrite Hc.
    destruct (Str.split_from (Str.rstrip a) (Some (String c ""))) eqn:Hsp.
    + now apply split_from_some in Hsp.
    + destruct (negb (validate_gcode_command_string s)); eauto.
Qed.

(** The command is missing exactly on blank lines. *)
Lemma parse_command_none (line : string) (prev : option State.t) (g : Gcode.t) :
  parse_gcode_line line prev = Ok g ->
  (Gcode.command g = None <-> Str.strip line = "").
Proof.
  unfold parse_gcode_line. intros H.
  destruct (Str.strip line) as [| c r] eqn:Hs.
  - simpl in H. inversion H. destruct prev; simpl; tauto.
  - replace (String.eqb (String c r) "") with false in H by reflexivity.
    split; [| discriminate].
    revert H.
    repeat match goal with
           | |- context [if ?b then _ else _] => destruct b
           | |- context [match ?x with _ => _ end] => destruct x
           end;
      intros H; inversion H; subst; simpl; discriminate.
Qed.

End TokenizerFacts.

(** ** The compensation block, in closed form *)

(** With an explicit [E] value. *)
Lemma compensate_explicit (cfg : Config) (travel : bool) (g : Gcode.t)
    (ps : State.t) (x px e s : number) :
  State.X ps = Some px ->
  compensate cfg travel g ps x (Some e) s =
  Ok (Gcode.set_param "E"
        (Some (Num.round
                 (Num.add e (hardlimit cfg (adjustment cfg travel x px s) e)) 5)) g,
      settling_after cfg travel s (Num.sub x px),
      verbose_after cfg travel x px s
        (hardlimit cfg (adjustment cfg travel x px s) e),
      warned_after cfg travel s (Num.sub x px)).
Proof.
  intros HX. unfold compensate, adjustment, warned_after, verbose_after,
    settling_after, extruder_position_adjustment, sub_opt.
  rewrite HX. simpl. fold (curve cfg x). fold (curve cfg px).
  destruct (negb travel || negb (freeze_settle_on_travel cfg));
    destruct (verbose cfg); reflexivity.
Qed.

(** Without an [E] value, travel synthesis enabled. *)
Lemma compensate_synthesis (cfg : Config) (travel : bool) (g : Gcode.t)
    (ps : State.t) (x px s : number) :
  State.X ps = Some px ->
  use_for_travel_moves cfg = true ->
  compensate cfg travel g ps x None s =
  Ok (Gcode.set_param "E"
        (Some (Num.round (adjustment cfg travel x px s) 5)) g,
      settling_after cfg travel s (Num.sub x px),
      ItemStr ";TRAVEL"
        :: verbose_after cfg travel x px s (adjustment cfg travel x px s),
      warned_after cfg travel s (Num.sub x px)).
Proof.
  intros HX Hu. unfold compensate, adjustment, warned_after, verbose_after,
    settling_after, extruder_position_adjustment, sub_opt.
  rewrite HX, Hu. simpl. fold (curve cfg x). fold (curve cfg px).
  destruct (negb travel || negb (freeze_settle_on_travel cfg));
    destruct (verbose cfg); reflexivity.
Qed.

(** ** What the loop appends to the output *)

Lemma compensate_appended (cfg : Config) (travel : bool) (g g' : Gcode.t)
    (ps : State.t) (x : number) (e : option number) (s s' : number)
    (app : list item) (w : list number) :
  compensate cfg travel g ps x e s = Ok (g', s', app, w) ->
  filter is_command app = [] /\ diagnostics cfg app.
Proof.
  unfold compensate, diagnostics. intros H.
  break_result H. break_result H. break_result H.
  destruct (negb travel || negb (freeze_settle_on_travel cfg));
    destruct e; destruct (use_for_travel_moves cfg);
    destruct (verbose cfg) eqn:Hv;
    inversion H; subst; (split; [reflexivity |]);
    intros str Hin; simpl in Hin;
    repeat (destruct Hin as [Hin | Hin]; [inversion Hin; subst; clear Hin |]);
    try contradiction;
    (split;
     [ unfold is_diagnostic;
       first [ left; reflexivity
             | right; left; reflexivity
             | right; right; reflexivity ]
     | intros; first [reflexivity | congruence] ]).
Qed.

Section Lines.

Context {rt : PyRuntime}.


Lemma rewrite_command_appended (cfg : Config) (st : Loop) (g g' : Gcode.t)
    (s' : number) (app : list item) (w : list number) :
  rewrite_command cfg st g = Ok (g', s', app, w) ->
  filter is_command app = [] /\ diagnostics cfg app.
Proof.
  unfold rewrite_command, motion. intros H.
  repeat match type of H with
         | context [if ?b then _ else _] => destruct b
         | context [match ?x with _ => _ end] => destruct x
         end;
    try (inversion H; subst; split; [reflexivity | intros ? []]).
  eapply compensate_appended; eassumption.
Qed.


End Lines.


(** ** The [G91] command *)


(** ** Motion commands in the loop *)

Lemma command_is_eq (c : string) (g : Gcode.t) :
  Gcode.command_is c g = true -> Gcode.command g = Some c.
Proof.
  unfold Gcode.command_is. destruct (Gcode.command g); [| discriminate].
  intros H. apply String.eqb_eq in H. now subst.
Qed.

(** A processed command is [G1], [G2], [G3], or [G0] with travel synthesis. *)
Lemma processed_cases (cfg : Config) (g : Gcode.t) :
  processed cfg g = true ->
  (Gcode.command g = Some "G1" \/ Gcode.command g = Some "G2"
   \/ Gcode.command g = Some "G3")
  \/ (Gcode.command g = Some "G0" /\ use_for_travel_moves cfg = true).
Proof.
  unfold processed, Gcode.is_G123. intros H.
  apply orb_true_iff in H. destruct H as [H | H].
  - left. apply orb_true_iff in H. destruct H as [H | H].
    + apply orb_true_iff in H. destruct H as [H | H];
        apply command_is_eq in H; auto.
    + apply command_is_eq in H; auto.
  - right. apply andb_true_iff in H. destruct H as [H Hu].
    apply command_is_eq in H. auto.
Qed.

Ltac literal_command g H :=
  destruct g as [c ps ma ea cm pv nl]; simpl in H; subst c.

Lemma get_param_set_first (n : string) (v : option number) (ps : list Param.t) :
  match Gcode.set_first n v ps with
  | Some ps' =>
      exists p, find (Gcode.has_name n) ps' = Some p /\ Param.value p = v
  | None => find (Gcode.has_name n) ps = None
  end.
Proof.
  induction ps as [| p ps IH]; simpl; [reflexivity |].
  destruct (Gcode.has_name n p) eqn:Hp.
  - exists (Param.mk (Param.name p) v). simpl.
    unfold Gcode.has_name in *. simpl. rewrite Hp. auto.
  - destruct (Gcode.set_first n v ps); simpl.
    + rewrite Hp. exact IH.
    + exact IH.
Qed.

(** [get_param] after [set_param] of the same name. *)
Lemma get_param_set_param (n : string) (v : option number) (g : Gcode.t) :
  Gcode.get_param n (Gcode.set_param n v g) = v.
Proof.
  unfold Gcode.get_param, Gcode.set_param, Gcode.find_param.
  pose proof (get_param_set_first n v (Gcode.parameters g)) as H.
  destruct (Gcode.set_first n v (Gcode.parameters g)); simpl.
  - destruct H as (p & -> & Hv). exact Hv.
  - assert (Hf : forall l, find (Gcode.has_name n) l = None ->
                           find (Gcode.has_name n) (l ++ [Param.mk n v])
                           = Some (Param.mk n v)).
    { induction l as [| q l IH]; simpl.
      - intros _. unfold Gcode.has_name. simpl. now rewrite String.eqb_refl.
      - destruct (Gcode.has_name n q); [discriminate | exact IH]. }
    rewrite (Hf _ H). reflexivity.
Qed.

Lemma command_set_param (n : string) (v : option number) (g : Gcode.t) :
  Gcode.command (Gcode.set_param n v g) = Gcode.command g.
Proof.
  unfold Gcode.set_param. destruct (Gcode.set_first n v (Gcode.parameters g));
    reflexivity.
Qed.

Section MotionLines.

Context {rt : PyRuntime}.

Lemma converted_parameters (cfg : Config) (st : Loop) (g : Gcode.t) :
  Gcode.parameters (converted cfg st g) = Gcode.parameters g.
Proof.
  unfold converted, convert_travel.
  destruct (Gcode.command_is "G0" _ && use_for_travel_moves cfg); reflexivity.
Qed.

Lemma converted_previous_state (cfg : Config) (st : Loop) (g : Gcode.t) :
  Gcode.previous_state (converted cfg st g) = Gcode.previous_state g.
Proof.
  unfold converted, convert_travel.
  destruct (Gcode.command_is "G0" _ && use_for_travel_moves cfg); reflexivity.
Qed.

Lemma converted_get_param (cfg : Config) (st : Loop) (g : Gcode.t) (n : string) :
  Gcode.get_param n (converted cfg st g) = Gcode.get_param n g.
Proof.
  unfold Gcode.get_param, Gcode.find_param.
  now rewrite converted_parameters.
Qed.

(** A command that was [G0] leaves the conversion as [G1]; the others keep
    their name. *)
Lemma converted_command (cfg : Config) (st : Loop) (g : Gcode.t) :
  processed cfg g = true ->
  Gcode.command (converted cfg st g)
  = if Gcode.command_is "G0" g then Some "G1" else Gcode.command g.
Proof.
  intros H. apply processed_cases in H.
  destruct H as [[H | [H | H]] | [H Hu]]; literal_command g H;
    unfold converted, convert_travel; simpl; try rewrite Hu; reflexivity.
Qed.

(** A processed command goes through the loop to [motion]. *)
Lemma loop_body_processed (cfg : Config) (st : Loop) (line : string)
    (g : Gcode.t) (ns : State.t) :
  parse_gcode_line line (last_state st) = Ok g ->
  processed cfg g = true ->
  Gcode.state cfg g = Ok ns ->
  loop_body cfg st line =
  (out <- motion cfg (Gcode.command_is "G0" g) (converted cfg st g)
            (settling_current st) ;;
   Ok (advance cfg st g ns out)).
Proof.
  intros Hp H Hs. rewrite loop_body_eq, Hp. simpl.
  assert (Hm : apply_modes cfg g = g).
  { apply processed_cases in H.
    destruct H as [[H | [H | H]] | [H Hu]]; literal_command g H; reflexivity. }
  rewrite Hm, Hs.
  assert (Hk : skipped cfg g = false).
  { apply processed_cases in H. unfold skipped.
    destruct H as [[H | [H | H]] | [H Hu]]; rewrite H;
      simpl; apply andb_false_r. }
  rewrite Hk. simpl. unfold rewrite_command, converted.
  apply processed_cases in H.
  destruct H as [[H | [H | H]] | [H Hu]]; literal_command g H;
    unfold convert_travel; simpl; try rewrite Hu; reflexivity.
Qed.

End MotionLines.

(** ** C5 and C9: synthesized extrusion *)

Section Synthesis.

Context {rt : PyRuntime}.

(** A processed command with an [X] value, no [E] value and a previous
    state whose [X] is a number, under [use_for_travel_moves]. *)
Lemma loop_body_synthesis (cfg : Config) (st : Loop) (line : string)
    (g : Gcode.t) (ps ns : State.t) (x px : number) :
  use_for_travel_moves cfg = true ->
  parse_gcode_line line (last_state st) = Ok g ->
  processed cfg g = true ->
  last_state st = Some ps ->
  State.X ps = Some px ->
  Gcode.get_param "X" g = Some x ->
  Gcode.get_param "E" g = None ->
  Gcode.state cfg g = Ok ns ->
  let travel := Gcode.command_is "G0" g in
  let adj := adjustment cfg travel x px (settling_current st) in
  exists st' g',
    loop_body cfg st line = Ok st'
    /\ gcodes st' =
       (gcodes st
        ++ ItemStr ";TRAVEL"
             :: verbose_after cfg travel x px (settling_current st) adj
        ++ [ItemGcode g'])%list
    /\ Gcode.command g' = (if travel then Some "G1" else Gcode.command g)
    /\ Gcode.get_param "E" g' = Some (Num.round adj 5).
Proof.
  intros Hu Hp Hpr Hl HX Hx He Hs travel adj.
  rewrite (loop_body_processed cfg st line g ns Hp Hpr Hs).
  unfold motion.
  rewrite converted_previous_state, !converted_get_param, Hx, He.
  rewrite (parse_previous_state _ _ _ Hp), Hl.
  rewrite (compensate_synthesis cfg _ _ ps x px _ HX Hu). simpl.
  eexists. eexists. split; [reflexivity |]. simpl.
  split; [reflexivity |]. split.
  - rewrite command_set_param. now apply converted_command.
  - apply get_param_set_param.
Qed.

End Synthesis.

(** C5, as written, fails on the first processed line: there is no
    previous state, so the [G0] move becomes a [G1] that gains no [E], and
    no [;TRAVEL] is put before it. *)
Lemma first_travel_move_gains_no_E :
  use_for_travel_moves default_config = true
  /\ main (rt := Decimal.runtime) default_config ["G0 X20"] = Ok ["G1 X20"]
  /\ exists g,
      read_gcode_file (rt := Decimal.runtime) default_config ["G0 X20"]
      = Ok [ItemGcode g]
      /\ Gcode.get_param "E" g = None.
Proof.
  split; [reflexivity |]. split; [vm_compute; reflexivity |].
  eexists. split; vm_compute; reflexivity.
Qed.

(** C5, amended.  With travel synthesis enabled, a [G0] move that has an
    [X] value and no [E] value, and that comes after a processed line (so
    that there is a previous state, whose [X] is a number), becomes a [G1]
    whose [E] is the adjustment rounded to 5 decimals, not limited by the
    hardlimit factor; [;TRAVEL] is put before it. *)
Theorem travel_move_gains_E {rt : PyRuntime} (cfg : Config) (st : Loop)
    (line : string) (g : Gcode.t) (ps ns : State.t) (x px : number) :
  use_for_travel_moves cfg = true ->
  parse_gcode_line line (last_state st) = Ok g ->
  Gcode.command g = Some "G0" ->
  last_state st = Some ps ->
  State.X ps = Some px ->
  Gcode.get_param "X" g = Some x ->
  Gcode.get_param "E" g = None ->
  Gcode.state cfg g = Ok ns ->
  exists st' g',
    loop_body cfg st line = Ok st'
    /\ gcodes st' =
       (gcodes st
        ++ ItemStr ";TRAVEL"
             :: verbose_after cfg true x px (settling_current st)
                  (adjustment cfg true x px (settling_current st))
        ++ [ItemGcode g'])%list
    /\ Gcode.command g' = Some "G1"
    /\ Gcode.get_param "E" g'
       = Some (Num.round
                 (relative_adjustment (Num.sub (curve cfg x) (curve cfg px))
                    (settling_after cfg true (settling_current st) (Num.sub x px))
                    (Num.sub x px)) 5).
Proof.
  intros Hu Hp Hc Hl HX Hx He Hs.
  assert (H0 : Gcode.command_is "G0" g = true).
  { unfold Gcode.command_is. now rewrite Hc. }
  assert (Hpr : processed cfg g = true).
  { unfold processed. rewrite H0, Hu. apply orb_true_r. }
  destruct (loop_body_synthesis cfg st line g ps ns x px
              Hu Hp Hpr Hl HX Hx He Hs) as (st' & g' & H).
  rewrite H0 in H. exists st', g'. exact H.
Qed.

Lemma travel_move_gains_E_witness :
  exists st st' g',
    run (rt := Decimal.runtime) default_config ["G1 X10 E1"] = Ok st
    /\ loop_body (rt := Decimal.runtime) default_config st "G0 X20" = Ok st'
    /\ gcodes st' = (gcodes st ++ [ItemStr ";TRAVEL"; ItemGcode g'])%list
    /\ Gcode.command g' = Some "G1"
    /\ Gcode.get_param "E" g' = Some (PyFloat (363 # 100000)).
Proof.
  eexists. 
  destruct (travel_move_gains_E (rt := Decimal.runtime) default_config
              (mkLoop
                 [ItemGcode
                    (Gcode.mk (Some "G1")
                       [Param.mk "X" (Some (PyInt 10));
                        Param.mk "E" (Some (PyInt 1))]
                       true true None None (Some 1%nat))]
                 LayerNone LayerNone
                 (Some (State.mk (Some (PyInt 10)) (Some (PyInt 0))
                          (Some (PyInt 0)) (Some (PyInt 1)) None true true
                          (PyFloat (2 # 10))))
                 2 (PyFloat 0) 1 [])
              "G0 X20"
              (Gcode.mk (Some "G0") [Param.mk "X" (Some (PyInt 20))]
                 true true None
                 (Some (State.mk (Some (PyInt 10)) (Some (PyInt 0))
                          (Some (PyInt 0)) (Some (PyInt 1)) None true true
                          (PyFloat (2 # 10))))
                 None)
              (State.mk (Some (PyInt 10)) (Some (PyInt 0))
                 (Some (PyInt 0)) (Some (PyInt 1)) None true true
                 (PyFloat (2 # 10)))
              (State.mk (Some (PyInt 20)) (Some (PyInt 0))
                 (Some (PyInt 0)) (Some (PyInt 1)) None true true
                 (PyFloat (2 # 10)))
              (PyInt 20) (PyInt 10)
              eq_refl eq_refl eq_refl eq_refl eq_refl eq_refl eq_refl eq_refl)
    as (st' & g' & H1 & H2 & H3 & H4).
  exists st', g'.
  split; [vm_compute; reflexivity |].
  split; [exact H1 |]. split; [exact H2 |]. split; [exact H3 |].
  rewrite H4. vm_compute. reflexivity.
Defined.

(** C9, as written, fails when [verbose] is set: the two verbose lines
    stand between [;TRAVEL] and the command. *)
Lemma travel_marker_not_adjacent_under_verbose :
  main (rt := Decimal.runtime) verbose_config ["G90"; "G1 X20"]
  = Ok ["G90";
        ";TRAVEL";
        ";ABS E adj:0.13467 settl:0.00000 Δx:20.000";
        ";REL E adj:0.01496";
        "G1 X20 E.01496"].
Proof. vm_compute. reflexivity. Qed.

(** C9, amended.  Under [use_for_travel_moves], every processed command
    ([G1], [G2], [G3] or a converted [G0]) with an [X] value, no [E]
    value and a previous state whose [X] is a number gets an [E] equal to
    the adjustment, not limited, rounded to 5 decimals.  [;TRAVEL] is
    appended before it: immediately before it when [verbose] is off, and
    followed by the two verbose lines when [verbose] is on. *)
Theorem motion_without_E_gains_E {rt : PyRuntime} (cfg : Config) (st : Loop)
    (line : string) (g : Gcode.t) (ps ns : State.t) (x px : number) :
  use_for_travel_moves cfg = true ->
  parse_gcode_line line (last_state st) = Ok g ->
  processed cfg g = true ->
  last_state st = Some ps ->
  State.X ps = Some px ->
  Gcode.get_param "X" g = Some x ->
  Gcode.get_param "E" g = None ->
  Gcode.state cfg g = Ok ns ->
  let travel := Gcode.command_is "G0" g in
  let adj := adjustment cfg travel x px (settling_current st) in
  exists st' g',
    loop_body cfg st line = Ok st'
    /\ gcodes st' =
       (gcodes st
        ++ ItemStr ";TRAVEL"
             :: (if verbose cfg
                 then verbose_lines (Num.sub (curve cfg x) (curve cfg px))
                        (settling_after cfg travel (settling_current st)
                           (Num.sub x px))
                        (Num.sub x px) adj
                 else [])
        ++ [ItemGcode g'])%list
    /\ (verbose cfg = false ->
        gcodes st' = (gcodes st ++ [ItemStr ";TRAVEL"; ItemGcode g'])%list)
    /\ Gcode.get_param "E" g' = Some (Num.round adj 5).
Proof.
  intros Hu Hp Hpr Hl HX Hx He Hs travel adj.
  destruct (loop_body_synthesis cfg st line g ps ns x px
              Hu Hp Hpr Hl HX Hx He Hs) as (st' & g' & H1 & H2 & _ & H4).
  exists st', g'. split; [exact H1 |]. split; [exact H2 |].
  split; [| exact H4].
  intros Hv. rewrite H2. unfold verbose_after. rewrite Hv. reflexivity.
Qed.

Lemma motion_without_E_gains_E_witness :
  exists st st' g',
    run (rt := Decimal.runtime) default_config ["G1 X10 E1"] = Ok st
    /\ loop_body (rt := Decimal.runtime) default_config st "G2 X20" = Ok st'
    /\ gcodes st' = (gcodes st ++ [ItemStr ";TRAVEL"; ItemGcode g'])%list
    /\ Gcode.get_param "E" g' = Some (PyFloat (363 # 100000)).
Proof.
  eexists.
  destruct (motion_without_E_gains_E (rt := Decimal.runtime) default_config
              (mkLoop
                 [ItemGcode
                    (Gcode.mk (Some "G1")
                       [Param.mk "X" (Some (PyInt 10));
                        Param.mk "E" (Some (PyInt 1))]
                       true true None None (Some 1%nat))]
                 LayerNone LayerNone
                 (Some (State.mk (Some (PyInt 10)) (Some (PyInt 0))
                          (Some (PyInt 0)) (Some (PyInt 1)) None true true
                          (PyFloat (2 # 10))))
                 2 (PyFloat 0) 1 [])
              "G2 X20"
              (Gcode.mk (Some "G2") [Param.mk "X" (Some (PyInt 20))]
                 true true None
                 (Some (State.mk (Some (PyInt 10)) (Some (PyInt 0))
                          (Some (PyInt 0)) (Some (PyInt 1)) None true true
                          (PyFloat (2 # 10))))
                 None)
              (State.mk (Some (PyInt 10)) (Some (PyInt 0))
                 (Some (PyInt 0)) (Some (PyInt 1)) None true true
                 (PyFloat (2 # 10)))
              (State.mk (Some (PyInt 20)) (Some (PyInt 0))
                 (Some (PyInt 0)) (Some (PyInt 1)) None true true
                 (PyFloat (2 # 10)))
              (PyInt 20) (PyInt 10)
              eq_refl eq_refl eq_refl eq_refl eq_refl eq_refl eq_refl eq_refl)
    as (st' & g' & H1 & _ & H3 & H4).
  exists st', g'.
  split; [vm_compute; reflexivity |].
  split; [exact H1 |]. split; [exact (H3 eq_refl) |].
  rewrite H4. vm_compute. reflexivity.
Defined.

(** ** C6: no [X], no change *)

Section Frame.

Context {rt : PyRuntime}.

Lemma motion_without_X (cfg : Config) (travel : bool) (g : Gcode.t) (s : number) :
  Gcode.get_param "X" g = None ->
  motion cfg travel g s = Ok (g, s, [], []).
Proof.
  intros Hx. unfold motion. rewrite Hx.
  destruct (Gcode.previous_state g); reflexivity.
Qed.

Lemma motion_without_previous_state (cfg : Config) (travel : bool)
    (g : Gcode.t) (s : number) :
  Gcode.previous_state g = None ->
  motion cfg travel g s = Ok (g, s, [], []).
Proof.
  intros Hx. unfold motion. rewrite Hx. reflexivity.
Qed.

End Frame.

(** C6.  A motion command ([G0], [G1], [G2] or [G3]) without an [X] value
    goes to the output with the parameters it was parsed with; its [E] in
    particular is the parsed one. *)
Theorem no_X_leaves_E {rt : PyRuntime} (cfg : Config) (st : Loop)
    (line : string) (g : Gcode.t) (ns : State.t) :
  parse_gcode_line line (last_state st) = Ok g ->
  Gcode.command g = Some "G0" \/ Gcode.command g = Some "G1"
  \/ Gcode.command g = Some "G2" \/ Gcode.command g = Some "G3" ->
  Gcode.get_param "X" g = None ->
  Gcode.state cfg g = Ok ns ->
  exists st' g',
    loop_body cfg st line = Ok st'
    /\ gcodes st' = (gcodes st ++ [ItemGcode g'])%list
    /\ Gcode.parameters g' = Gcode.parameters g
    /\ Gcode.get_param "E" g' = Gcode.get_param "E" g
    /\ settling_current st' = settling_current st.
Proof.
  intros Hp Hc Hx Hs.
  destruct (processed cfg g) eqn:Hpr.
  - rewrite (loop_body_processed cfg st line g ns Hp Hpr Hs).
    rewrite motion_without_X by (now rewrite converted_get_param).
    simpl. eexists. eexists. split; [reflexivity |]. simpl.
    split; [reflexivity |]. split; [apply converted_parameters |].
    split; [apply converted_get_param | reflexivity].
  - assert (Hu : Gcode.command g = Some "G0" /\ use_for_travel_moves cfg = false).
    { unfold processed, Gcode.is_G123, Gcode.command_is in Hpr.
      destruct Hc as [Hc | [Hc | [Hc | Hc]]]; rewrite Hc in Hpr;
        simpl in Hpr; try discriminate. auto. }
    destruct Hu as [H0 Hu]. clear Hc Hpr.
    rewrite loop_body_eq, Hp. literal_command g H0. simpl.
    replace (apply_modes cfg (Gcode.mk (Some "G0") ps ma ea cm pv nl))
      with (Gcode.mk (Some "G0") ps ma ea cm pv nl) by reflexivity.
    rewrite Hs. unfold skipped. simpl. rewrite andb_false_r. simpl.
    unfold rewrite_command, convert_travel. simpl. rewrite Hu. simpl.
    eexists. eexists. split; [reflexivity |]. simpl. auto.
Qed.

Lemma no_X_leaves_E_witness :
  exists st',
    loop_body (rt := Decimal.runtime) default_config
      (mkLoop [] LayerNone LayerNone
         (Some (State.mk (Some (PyInt 10)) (Some (PyInt 0)) (Some (PyInt 0))
                  (Some (PyInt 0)) None true true (PyFloat (2 # 10))))
         2 (PyFloat 0) 1 [])
      "G1 Y5 E0.25" = Ok st'
    /\ exists g', gcodes st' = [ItemGcode g']
                  /\ Gcode.get_param "E" g' = Some (PyFloat (25 # 100)).
Proof.
  destruct (no_X_leaves_E (rt := Decimal.runtime) default_config
              (mkLoop [] LayerNone LayerNone
                 (Some (State.mk (Some (PyInt 10)) (Some (PyInt 0))
                          (Some (PyInt 0)) (Some (PyInt 0)) None true true
                          (PyFloat (2 # 10))))
                 2 (PyFloat 0) 1 [])
              "G1 Y5 E0.25"
              (Gcode.mk (Some "G1")
                 [Param.mk "Y" (Some (PyInt 5));
                  Param.mk "E" (Some (PyFloat (25 # 100)))]
                 true true None
                 (Some (State.mk (Some (PyInt 10)) (Some (PyInt 0))
                          (Some (PyInt 0)) (Some (PyInt 0)) None true true
                          (PyFloat (2 # 10))))
                 None)
              (State.mk (Some (PyInt 10)) (Some (PyInt 5)) (Some (PyInt 0))
                 (Some (PyFloat (25 # 100))) None true true (PyFloat (2 # 10)))
              eq_refl (or_intror (or_introl eq_refl)) eq_refl eq_refl)
    as (st' & g' & H1 & H2 & _ & H4 & _).
  exists st'. split; [exact H1 |]. exists g'. split; [exact H2 | exact H4].
Defined.

(** ** C7: the first processed command *)

Lemma state_parameter_absolute (s : State.t) (p : Param.t) :
  absolute s -> exists s', Gcode.state_parameter s p = Ok s' /\ absolute s'.
Proof.
  intros [Hm He]. unfold Gcode.state_parameter. rewrite Hm, He.
  repeat match goal with
         | |- context [if ?b then _ else _] => destruct b
         end;
    eexists; (split; [reflexivity | split; assumption]).
Qed.

Lemma state_parameters_absolute (ps : list Param.t) (s : State.t) :
  absolute s -> exists s', Gcode.state_parameters s ps = Ok s'.
Proof.
  revert s. induction ps as [| p ps IH]; simpl; intros s Hs.
  - eauto.
  - destruct (state_parameter_absolute s p Hs) as (s1 & -> & H1).
    simpl. apply IH. exact H1.
Qed.

(** Without a previous state [Gcode.state] does not raise, and it does
    what it would do after [origin]. *)
Lemma state_without_previous (cfg : Config) (g : Gcode.t) :
  Gcode.previous_state g = None ->
  exists ns,
    Gcode.state cfg g = Ok ns
    /\ Gcode.state cfg (Gcode.set_previous_state (Some origin) g) = Ok ns.
Proof.
  intros Hp. unfold Gcode.state. rewrite Hp. simpl.
  change (Gcode.is_G123 (Gcode.set_previous_state (Some origin) g))
    with (Gcode.is_G123 g).
  change (Gcode.command_is "G0" (Gcode.set_previous_state (Some origin) g))
    with (Gcode.command_is "G0" g).
  fold origin. unfold State.clone.
  destruct (Gcode.is_G123 g || Gcode.command_is "G0" g && use_for_travel_moves cfg).
  - destruct (state_parameters_absolute (Gcode.parameters g) origin) as [s' ->];
      [split; reflexivity |].
    simpl. eauto.
  - simpl. eauto.
Qed.

Section FirstCommand.

Context {rt : PyRuntime}.

Lemma previous_state_apply_modes (cfg : Config) (g : Gcode.t) :
  Gcode.previous_state (apply_modes cfg g) = Gcode.previous_state g.
Proof.
  unfold apply_modes, Gcode.set_param.
  repeat match goal with
         | |- context [if ?b then _ else _] => destruct b
         | |- context [match ?x with _ => _ end] => destruct x
         end; reflexivity.
Qed.

Lemma rewrite_command_without_previous (cfg : Config) (st : Loop) (g : Gcode.t) :
  Gcode.previous_state g = None ->
  rewrite_command cfg st g
  = Ok (converted cfg st g, settling_current st, [], []).
Proof.
  intros Hp. unfold rewrite_command. fold (converted cfg st g).
  destruct (Gcode.is_G123 (converted cfg st g)); [| reflexivity].
  apply motion_without_previous_state.
  now rewrite converted_previous_state.
Qed.

End FirstCommand.

(** C7, as written, fails in its last part: a first-line [G1 X10 E0.5]
    leaves with its [E] untouched, while the same command after a state
    with [X = 0] is compensated. *)
Lemma first_command_is_not_compensated :
  main (rt := Decimal.runtime) default_config ["G1 X10 E0.5"]
  = Ok ["G1 X10 E.5"]
  /\ main (rt := Decimal.runtime) default_config ["G90"; "G1 X10 E0.5"]
     = Ok ["G90"; "G1 X10 E.50385"].
Proof. split; vm_compute; reflexivity. Qed.

(** C7, amended.  On the first processed line there is no previous state
    and processing does not raise: [Gcode.state] starts from
    [X = Y = Z = E = 0], exactly as after [origin], and that state is the
    previous state of the next line.  The command itself is not
    compensated: it goes to the output with its parameters as parsed, the
    accumulator is unchanged and no diagnostic is added. *)
Theorem first_command_defaults_to_origin {rt : PyRuntime} (cfg : Config)
    (st : Loop) (line : string) :
  last_state st = None ->
  exists g,
    parse_gcode_line line (last_state st) = Ok g
    /\ Gcode.previous_state g = None
    /\ (skipped cfg (apply_modes cfg g) = true ->
        loop_body cfg st line = Ok st)
    /\ (skipped cfg (apply_modes cfg g) = false ->
        exists ns st' g',
          Gcode.state cfg (apply_modes cfg g) = Ok ns
          /\ Gcode.state cfg
               (Gcode.set_previous_state (Some origin) (apply_modes cfg g))
             = Ok ns
          /\ loop_body cfg st line = Ok st'
          /\ gcodes st' = (gcodes st ++ [ItemGcode g'])%list
          /\ Gcode.parameters g' = Gcode.parameters (apply_modes cfg g)
          /\ settling_current st' = settling_current st
          /\ warnings st' = warnings st
          /\ last_state st' = Some ns).
Proof.
  intros Hl. destruct (parse_total line (last_state st)) as [g Hp].
  exists g. split; [exact Hp |].
  assert (Hprev : Gcode.previous_state g = None).
  { rewrite (parse_previous_state _ _ _ Hp). exact Hl. }
  split; [exact Hprev |]. rewrite loop_body_eq, Hp. simpl. split.
  - intros ->. reflexivity.
  - intros ->.
    assert (Hprev' : Gcode.previous_state (apply_modes cfg g) = None)
      by now rewrite previous_state_apply_modes.
    destruct (state_without_previous cfg _ Hprev') as (ns & Hs & Ho).
    rewrite Hs, (rewrite_command_without_previous cfg st _ Hprev'). simpl.
    exists ns. eexists. eexists.
    split; [reflexivity |]. split; [exact Ho |]. split; [reflexivity |].
    simpl. split; [reflexivity |]. split; [apply converted_parameters |].
    split; [reflexivity |]. split; [apply app_nil_r | reflexivity].
Qed.

Lemma first_command_defaults_to_origin_witness :
  exists g,
    parse_gcode_line (rt := Decimal.runtime) "G1 X10 E0.5" None = Ok g
    /\ loop_body (rt := Decimal.runtime) default_config
         (loop_init (rt := Decimal.runtime)) "G1 X10 E0.5"
       = Ok (mkLoop [ItemGcode (Gcode.set_num_line (Some 1%nat) g)]
               LayerNone LayerNone
               (Some (State.mk (Some (PyInt 10)) (Some (PyInt 0))
                        (Some (PyInt 0)) (Some (PyFloat (5 # 10))) None
                        true true (PyFloat (2 # 10))))
               2 (PyFloat 0) 1 []).
Proof.
  destruct (first_command_defaults_to_origin (rt := Decimal.runtime)
              default_config (loop_init (rt := Decimal.runtime))
              "G1 X10 E0.5" eq_refl) as (g & Hp & _).
  exists g. split; [exact Hp |].
  vm_compute in Hp. inversion Hp. vm_compute. reflexivity.
Defined.

(** ** Rounding and the hardlimit *)

Lemma round_half_even_compat (p q : Q) :
  (p == q)%Q -> round_half_even p = round_half_even q.
Proof.
  unfold Qeq, round_half_even. intros H.
  set (a := Qnum p) in *. set (b := Z.pos (Qden p)) in *.
  set (c := Qnum q) in *. set (d := Z.pos (Qden q)) in *.
  assert (Hb : 0 < b) by (unfold b; lia).
  assert (Hd : 0 < d) by (unfold d; lia).
  assert (Hf : a / b = c / d).
  { rewrite <- (Z.div_mul_cancel_r a b d) by lia.
    rewrite <- (Z.div_mul_cancel_r c d b) by lia.
    rewrite H. f_equal. lia. }
  assert (Hm : (a mod b) * d = (c mod d) * b).
  { rewrite !Z.mod_eq by lia. rewrite Hf. nia. }
  assert (Hc : (2 * (a mod b) ?= b) = (2 * (c mod d) ?= d)).
  { destruct (Z.compare_spec (2 * (a mod b)) b),
      (Z.compare_spec (2 * (c mod d)) d); try reflexivity; exfalso; nia. }
  rewrite Hc, Hf. reflexivity.
Qed.

Lemma round_digits_compat (p q : Q) (n : nat) :
  (p == q)%Q -> round_digits p n = round_digits q n.
Proof.
  intros H. unfold round_digits. f_equal.
  apply round_half_even_compat. now rewrite H.
Qed.

Section Hardlimit.

Local Open Scope Q_scope.


(** For a negative [e] and a positive factor the two lines leave
    [-e * factor], whatever the adjustment was. *)
Lemma hardlimit_negative (cfg : Config) (adj e : number) :
  to_Q e < 0 ->
  0 < to_Q (adjustment_hardlimit_factor cfg) ->
  hardlimit cfg adj e
  = Num.mul (Num.neg e) (adjustment_hardlimit_factor cfg).
Proof.
  intros He Hh. unfold hardlimit.
  set (h := adjustment_hardlimit_factor cfg) in *.
  pose proof (to_Q_mul e h) as Hm.
  pose proof (to_Q_mul (Num.neg e) h) as Hn. rewrite to_Q_neg in Hn.
  assert (Hlt : to_Q (Num.min adj (Num.mul e h)) < to_Q (Num.mul (Num.neg e) h)).
  { rewrite Hn.
    destruct (min_spec adj (Num.mul e h)) as [[-> _] | [-> Hle]];
      rewrite ?Hm in *; nra. }
  unfold Num.max, Num.gt. apply Qltb_lt in Hlt. now rewrite Hlt.
Qed.

(** [round(e + -e * h, 5)] is [round(e * (1 - h), 5)]. *)
Lemma round_forced (e h : number) :
  Num.round (Num.add e (Num.mul (Num.neg e) h)) 5
  = Num.round (Num.mul e (Num.sub (PyInt 1) h)) 5.
Proof.
  destruct e as [z | q], h as [y | r]; cbn [Num.add Num.mul Num.neg Num.sub Num.round to_Q].
  - f_equal. ring.
  - f_equal. apply round_digits_compat. rewrite inject_Z_opp.
    change (inject_Z 1) with 1. ring.
  - f_equal. apply round_digits_compat.
    unfold Z.sub. rewrite inject_Z_plus, inject_Z_opp.
    change (inject_Z 1) with 1. ring.
  - f_equal. apply round_digits_compat. change (inject_Z 1) with 1. ring.
Qed.

End Hardlimit.

(** ** C3 and C10: the hardlimit *)

Section ExplicitExtrusion.

Context {rt : PyRuntime}.

(** A processed command with an [X] value, an [E] value and a previous
    state whose [X] is a number. *)
Lemma loop_body_explicit (cfg : Config) (st : Loop) (line : string)
    (g : Gcode.t) (ps ns : State.t) (x px e : number) :
  parse_gcode_line line (last_state st) = Ok g ->
  processed cfg g = true ->
  last_state st = Some ps ->
  State.X ps = Some px ->
  Gcode.get_param "X" g = Some x ->
  Gcode.get_param "E" g = Some e ->
  Gcode.state cfg g = Ok ns ->
  let travel := Gcode.command_is "G0" g in
  let adj :=
    hardlimit cfg (adjustment cfg travel x px (settling_current st)) e in
  exists st' g',
    loop_body cfg st line = Ok st'
    /\ gcodes st' =
       (gcodes st
        ++ verbose_after cfg travel x px (settling_current st) adj
        ++ [ItemGcode g'])%list
    /\ Gcode.get_param "E" g' = Some (Num.round (Num.add e adj) 5).
Proof.
  intros Hp Hpr Hl HX Hx He Hs travel adj.
  rewrite (loop_body_processed cfg st line g ns Hp Hpr Hs).
  unfold motion.
  rewrite converted_previous_state, !converted_get_param, Hx, He.
  rewrite (parse_previous_state _ _ _ Hp), Hl.
  rewrite (compensate_explicit cfg _ _ ps x px e _ HX). simpl.
  eexists. eexists. split; [reflexivity |]. simpl.
  split; [reflexivity |]. apply get_param_set_param.
Qed.

End ExplicitExtrusion.




(** ** C8: rendering twice *)

Section Idempotence.

Context {rt : PyRuntime}.

Lemma str_unfold (g : Gcode.t) :
  Gcode.__str__ g
  = (str_finish (fst (str_loop g (Gcode.comment g)))
       (snd (str_loop g (Gcode.comment g))),
     Gcode.set_comment (snd (str_loop g (Gcode.comment g))) g).
Proof.
  unfold Gcode.__str__, str_loop, str_finish.
  destruct (Gcode.command g);
    [destruct (fold_left _ _ _) as [text comment] |]; reflexivity.
Qed.

Lemma append_empty (s : string) : s ++ "" = s.
Proof. induction s as [| c s IH]; simpl; [| rewrite IH]; reflexivity. Qed.

Lemma str_finish_shown (text : string) (c1 c2 : option string) :
  shown c1 = shown c2 -> str_finish text c1 = str_finish text c2.
Proof.
  unfold shown, str_finish.
  destruct c1 as [c1 |], c2 as [c2 |];
    repeat match goal with
           | |- context [(1 <? ?n)%nat] => destruct (1 <? n)%nat
           end;
    intros H; inversion H; subst; reflexivity.
Qed.

(** One parameter: the text does not look at the comment, and what is
    shown of the comment does not change. *)
Lemma str_parameter_comment (g : Gcode.t) (text : string)
    (c1 c2 : option string) (p : Param.t) :
  shown c1 = shown c2 ->
  fst (Gcode.str_parameter g (text, c1) p)
  = fst (Gcode.str_parameter g (text, c2) p)
  /\ shown (snd (Gcode.str_parameter g (text, c1) p))
     = shown (snd (Gcode.str_parameter g (text, c2) p)).
Proof.
  intros H. unfold Gcode.str_parameter.
  destruct (Param.value p); [| split; [reflexivity | exact H]].
  destruct (Gcode.has_name "X" p || Gcode.has_name "Y" p || Gcode.has_name "Z" p);
    [split; [reflexivity | exact H] |].
  destruct (Gcode.has_name "E" p); [| split; [reflexivity | exact H]].
  destruct (negb (Gcode.is_xy_movement g)); [| split; [reflexivity | exact H]].
  destruct c1 as [c1 |], c2 as [c2 |]; simpl; rewrite ?append_empty;
    (split; [reflexivity | exact H]).
Qed.

Lemma str_parameters_comment (g : Gcode.t) (ps : list Param.t) (text : string)
    (c1 c2 : option string) :
  shown c1 = shown c2 ->
  fst (fold_left (Gcode.str_parameter g) ps (text, c1))
  = fst (fold_left (Gcode.str_parameter g) ps (text, c2))
  /\ shown (snd (fold_left (Gcode.str_parameter g) ps (text, c1)))
     = shown (snd (fold_left (Gcode.str_parameter g) ps (text, c2))).
Proof.
  revert text c1 c2. induction ps as [| p ps IH]; cbn [fold_left]; intros text c1 c2 H.
  - split; [reflexivity | exact H].
  - destruct (str_parameter_comment g text c1 c2 p H) as [Hf Hs].
    destruct (Gcode.str_parameter g (text, c1) p) as [t1 d1].
    destruct (Gcode.str_parameter g (text, c2) p) as [t2 d2].
    simpl in Hf, Hs. subst t2. apply IH. exact Hs.
Qed.

Lemma str_loop_comment (g : Gcode.t) (c1 c2 : option string) :
  shown c1 = shown c2 ->
  fst (str_loop g c1) = fst (str_loop g c2)
  /\ shown (snd (str_loop g c1)) = shown (snd (str_loop g c2)).
Proof.
  intros H. unfold str_loop. destruct (Gcode.command g).
  - now apply str_parameters_comment.
  - split; [reflexivity | exact H].
Qed.

(** What the loop leaves in the comment field shows as the comment it
    started with. *)
Lemma str_loop_shown (g : Gcode.t) (c : option string) :
  shown (snd (str_loop g c)) = shown c.
Proof.
  unfold str_loop. destruct (Gcode.command g); [| reflexivity].
  generalize ("" ++ s). generalize (Gcode.parameters g).
  intros ps. revert c. induction ps as [| p ps IH]; cbn [fold_left]; intros c text.
  - reflexivity.
  - destruct (Gcode.str_parameter g (text, c) p) as [t d] eqn:Hp.
    rewrite IH.
    assert (Hd : shown d = shown c).
    { unfold Gcode.str_parameter in Hp.
      repeat match type of Hp with
             | context [if ?b then _ else _] => destruct b
             | context [match ?x with _ => _ end] => destruct x
             end; inversion Hp; subst; rewrite ?append_empty; reflexivity. }
    exact Hd.
Qed.

End Idempotence.

(** C8.  Rendering a command a second time gives the same text as the
    first time, although the first rendering may have assigned the comment
    field; this holds for every command, and so for those whose [E] is
    already rounded to 5 decimals. *)
Theorem str_twice {rt : PyRuntime} (g : Gcode.t) :
  fst (Gcode.__str__ (snd (Gcode.__str__ g))) = fst (Gcode.__str__ g).
Proof.
  rewrite (str_unfold g). cbn [fst snd].
  set (c1 := snd (str_loop g (Gcode.comment g))).
  rewrite (str_unfold (Gcode.set_comment c1 g)). cbn [fst snd].
  change (Gcode.comment (Gcode.set_comment c1 g)) with c1.
  change (str_loop (Gcode.set_comment c1 g)) with (str_loop g).
  assert (H1 : shown c1 = shown (Gcode.comment g)) by apply str_loop_shown.
  destruct (str_loop_comment g c1 (Gcode.comment g) H1) as [Hf Hs].
  rewrite Hf. apply str_finish_shown.
  rewrite Hs. reflexivity.
Qed.

(** ** C10: a negative extrusion *)

(** C10, as written, fails on the first processed line: there is no
    previous state, nothing is limited, and [E-0.5] is written back as it
    was, not as [round(-0.5 * (1 - 5), 5) = 2]. *)
Lemma first_negative_E_is_kept :
  main (rt := Decimal.runtime) default_config ["G1 X10 E-0.5"]
  = Ok ["G1 X10 E-.5"]
  /\ (exists g,
         read_gcode_file (rt := Decimal.runtime) default_config ["G1 X10 E-0.5"]
         = Ok [ItemGcode g]
         /\ Gcode.get_param "E" g = Some (PyFloat (-5 # 10)))
  /\ Num.round
       (Num.mul (PyFloat (-5 # 10))
          (Num.sub (PyInt 1) (adjustment_hardlimit_factor default_config))) 5
     = PyFloat (200000 # 100000).
Proof.
  split; [vm_compute; reflexivity |]. split.
  - eexists. split; vm_compute; reflexivity.
  - vm_compute. reflexivity.
Qed.

(** C10, amended.  For a processed command with an [X] value and an
    explicit [e < 0], after a previous state whose [X] is a number, and a
    hardlimit factor [h > 0]: the two limiting lines leave exactly
    [-e * h] whatever the adjustment was, and the value written back is
    [round(e * (1 - h), 5)] (stated away from exact ties of that
    value). *)
Theorem negative_E_forced {rt : PyRuntime} (cfg : Config) (st : Loop)
    (line : string) (g : Gcode.t) (ps ns : State.t) (x px e : number) :
  (to_Q e < 0)%Q ->
  (0 < to_Q (adjustment_hardlimit_factor cfg))%Q ->
  parse_gcode_line line (last_state st) = Ok g ->
  processed cfg g = true ->
  last_state st = Some ps ->
  State.X ps = Some px ->
  Gcode.get_param "X" g = Some x ->
  Gcode.get_param "E" g = Some e ->
  Gcode.state cfg g = Ok ns ->
  let h := adjustment_hardlimit_factor cfg in
  (forall adj, Num.max (Num.min adj (Num.mul e h)) (Num.mul (Num.neg e) h)
               = Num.mul (Num.neg e) h)
  /\ (forall adj, hardlimit cfg adj e = Num.mul (Num.neg e) h)
  /\ exists st' g' w,
      loop_body cfg st line = Ok st'
      /\ (exists appended,
             gcodes st' = (gcodes st ++ appended ++ [ItemGcode g'])%list)
      /\ Gcode.get_param "E" g' = Some w
      /\ (half_way (Num.mul e (Num.sub (PyInt 1) h)) 5 = false ->
          w = Num.round (Num.mul e (Num.sub (PyInt 1) h)) 5).
Proof.
  intros Hneg Hh Hp Hpr Hl HX Hx He Hs h.
  split; [intros adj; now apply (hardlimit_negative cfg adj e) |].
  split; [intros adj; now apply hardlimit_negative |].
  destruct (loop_body_explicit cfg st line g ps ns x px e
              Hp Hpr Hl HX Hx He Hs) as (st' & g' & H1 & H2 & H3).
  exists st', g'. eexists. split; [exact H1 |]. split; [eauto |].
  split; [exact H3 |]. intros _.
  rewrite hardlimit_negative by assumption. apply round_forced.
Qed.

Lemma negative_E_forced_witness :
  exists st' g',
    loop_body (rt := Decimal.runtime) default_config after_G90 "G1 X10 E-0.5"
    = Ok st'
    /\ Gcode.get_param "E" g' = Some (PyFloat (200000 # 100000)).
Proof.
  destruct (negative_E_forced (rt := Decimal.runtime) default_config
              after_G90 "G1 X10 E-0.5" (move_to_X10 (PyFloat (-5 # 10)))
              origin
              (State.set_E (Some (PyFloat (-5 # 10)))
                 (State.set_X (Some (PyInt 10)) origin))
              (PyInt 10) (PyInt 0) (PyFloat (-5 # 10))
              eq_refl eq_refl
              eq_refl eq_refl eq_refl eq_refl eq_refl eq_refl eq_refl)
    as (_ & _ & st' & g' & w & H1 & _ & Hw & Hr).
  exists st', g'. split; [exact H1 |]. rewrite Hw. f_equal. exact (Hr eq_refl).
Defined.

(* ------------------------------------------------------------------ *)
(** * Further properties *)

(** ** More on strings *)

Lemma append_char (x acc : string) (c : ascii) :
  (x ++ String c "") ++ acc = x ++ String c acc.
Proof. induction x as [| d x IH]; simpl; [| rewrite IH]; reflexivity. Qed.

Lemma rev_onto_append (s acc : string) :
  Str.rev_onto s acc = Str.rev_onto s "" ++ acc.
Proof.
  revert acc. induction s as [| c s IH]; simpl; intros acc; [reflexivity |].
  rewrite IH, (IH (String c "")), append_char. reflexivity.
Qed.

Lemma rev_cons (c : ascii) (s : string) :
  Str.rev (String c s) = Str.rev s ++ String c "".
Proof. unfold Str.rev. simpl. apply rev_onto_append. Qed.

(** What [rstrip] leaves does not end with whitespace. *)
Lemma rstrip_last (t : string) :
  Str.rstrip t = ""
  \/ exists d r, Str.rev (Str.rstrip t) = String d r /\ Str.isspace d = false.
Proof.
  induction t as [| c t IH]; simpl; [now left |].
  destruct (Str.rstrip t) as [| e r'] eqn:Hr.
  - destruct (Str.isspace c) eqn:Hc; [now left |].
    right. exists c, "". split; [reflexivity | exact Hc].
  - right. destruct IH as [IH | (d & r & Hrev & Hd)]; [discriminate |].
    exists d, (r ++ String c ""). rewrite rev_cons, Hrev. split; [reflexivity | exact Hd].
Qed.

Lemma strip_no_final_newline (line : string) :
  Str.endswith (String Str.nl "") (Str.strip line) = false.
Proof.
  unfold Str.endswith, Str.strip.
  destruct (rstrip_last (Str.lstrip line)) as [-> | (d & r & -> & Hd)];
    [reflexivity |].
  simpl. destruct (Ascii.eqb d Str.nl) eqn:He; [| reflexivity].
  apply Ascii.eqb_eq in He. subst d. discriminate Hd.
Qed.

Lemma rstrip_idempotent (t : string) : Str.rstrip (Str.rstrip t) = Str.rstrip t.
Proof.
  induction t as [| c t IH]; simpl; [reflexivity |].
  destruct (Str.rstrip t) as [| e r] eqn:Hr.
  - destruct (Str.isspace c) eqn:Hc; simpl; [reflexivity | now rewrite Hc].
  - simpl in *. rewrite IH. reflexivity.
Qed.

Lemma strip_idempotent (line : string) :
  Str.strip (Str.strip line) = Str.strip line.
Proof.
  destruct (strip_cases line) as [-> | (c & r & H & Hc)]; [reflexivity |].
  unfold Str.strip at 1. rewrite H. simpl Str.lstrip. rewrite Hc.
  rewrite <- H. unfold Str.strip. apply rstrip_idempotent.
Qed.

Lemma startswith_append (p s : string) :
  Str.startswith p s = true -> s = p ++ Str.drop (String.length p) s.
Proof.
  revert s. induction p as [| c p IH]; simpl; intros s H; [reflexivity |].
  destruct s as [| d s]; [discriminate |].
  apply andb_true_iff in H. destruct H as [Hc Hp].
  apply Ascii.eqb_eq in Hc. subst d. simpl. f_equal. now apply IH.
Qed.

(** ** The tokenizer *)

Section TokenizerMore.

Context {rt : PyRuntime}.

Lemma parse_blank (line : string) (prev : option State.t) :
  Str.strip line = "" ->
  parse_gcode_line line prev = Ok (attach prev Gcode.init).
Proof.
  intros H. unfold parse_gcode_line. rewrite H. simpl.
  destruct prev; reflexivity.
Qed.

Lemma parse_comment (line : string) (prev : option State.t) :
  Str.startswith ";" (Str.strip line) = true ->
  parse_gcode_line line prev
  = Ok (attach prev
          (Gcode.set_command (Some (Str.remove Str.nl (Str.strip line)))
             Gcode.init)).
Proof.
  intros H. unfold parse_gcode_line.
  pose proof (strip_no_final_newline line) as Hn.
  destruct (Str.strip line) as [| c r] eqn:Hs; [discriminate |].
  replace (String.eqb (String c r) "") with false by reflexivity.
  rewrite H, Hn. simpl. destruct prev; reflexivity.
Qed.

End TokenizerMore.

(** X1.  [parse_gcode_line] never raises: after the blank and comment
    cases the code portion has a first token, so [gcode_parts[0]] is in
    range. *)
Theorem tokenizer_never_raises {rt : PyRuntime} (line : string)
    (prev : option State.t) :
  exists g, parse_gcode_line line prev = Ok g.
Proof. apply parse_total. Qed.

(** X2.  The tokenizer leaves the command at [None] exactly on blank and
    whitespace-only lines, and such a line has no parameters and no
    comment. *)
Theorem blank_line_has_no_command {rt : PyRuntime} (line : string)
    (prev : option State.t) (g : Gcode.t) :
  parse_gcode_line line prev = Ok g ->
  (Gcode.command g = None <-> Str.strip line = "")
  /\ (Str.strip line = "" ->
      Gcode.parameters g = [] /\ Gcode.comment g = None).
Proof.
  intros H. split; [now apply (parse_command_none line prev) |].
  intros Hb. rewrite (parse_blank line prev Hb) in H. inversion H.
  destruct prev; split; reflexivity.
Qed.

Lemma blank_line_has_no_command_witness :
  Gcode.command
    (Gcode.mk None [] true true None None None) = None
  <-> Str.strip "   " = "".
Proof.
  exact (proj1 (blank_line_has_no_command (rt := Decimal.runtime) "   " None
                  (Gcode.mk None [] true true None None None) eq_refl)).
Defined.

(** X3.  A line whose stripped text starts with [;] becomes a command
    holding that text (newlines removed), without parameters or comment,
    and is rendered as that text. *)
Theorem comment_line_passes_through {rt : PyRuntime} (line : string)
    (prev : option State.t) :
  Str.startswith ";" (Str.strip line) = true ->
  exists g,
    parse_gcode_line line prev = Ok g
    /\ Gcode.command g = Some (Str.remove Str.nl (Str.strip line))
    /\ Gcode.parameters g = []
    /\ Gcode.comment g = None
    /\ fst (Gcode.__str__ g) = Str.remove Str.nl (Str.strip line).
Proof.
  intros H. eexists. split; [now apply parse_comment |].
  destruct prev; repeat split; reflexivity.
Qed.

Lemma comment_line_passes_through_witness :
  exists g,
    parse_gcode_line (rt := Decimal.runtime) "  ; layer 3, Z = 0.6 " None = Ok g
    /\ fst (Gcode.__str__ (rt := Decimal.runtime) g) = "; layer 3, Z = 0.6".
Proof.
  destruct (comment_line_passes_through (rt := Decimal.runtime)
              "  ; layer 3, Z = 0.6 " None eq_refl)
    as (g & H1 & _ & _ & _ & H5).
  exists g. split; [exact H1 | exact H5].
Defined.

(** X5.  The command, the parameters and the comment the tokenizer
    extracts from a line do not depend on the state it is given. *)
Theorem tokens_do_not_depend_on_state {rt : PyRuntime} (line : string)
    (prev1 prev2 : option State.t) (g1 g2 : Gcode.t) :
  parse_gcode_line line prev1 = Ok g1 ->
  parse_gcode_line line prev2 = Ok g2 ->
  Gcode.command g1 = Gcode.command g2
  /\ Gcode.parameters g1 = Gcode.parameters g2
  /\ Gcode.comment g1 = Gcode.comment g2.
Proof.
  rewrite (parse_attach line prev1), (parse_attach line prev2).
  destruct (parse_gcode_line line None) as [g |]; simpl; [| discriminate].
  intros H1 H2. inversion H1. inversion H2.
  destruct prev1, prev2; repeat split; reflexivity.
Qed.

Lemma tokens_do_not_depend_on_state_witness :
  Gcode.parameters
    (Gcode.mk (Some "G1") [Param.mk "X" (Some (PyInt 5))]
       true true None None None)
  = Gcode.parameters
      (Gcode.mk (Some "G1") [Param.mk "X" (Some (PyInt 5))]
         false true None (Some (State.set_modes false true origin)) None).
Proof.
  exact (proj1 (proj2 (tokens_do_not_depend_on_state (rt := Decimal.runtime)
                         "G1 X5" None
                         (Some (State.set_modes false true origin))
                         _ _ eq_refl eq_refl))).
Defined.

(** X4.  A line without [;] whose first token is not a letter followed
    by digits is kept whole as the command, without parameters, and is
    rendered as its stripped text. *)
Theorem unrecognised_line_passes_through {rt : PyRuntime} (line : string)
    (prev : option State.t) (first : string) (rest : list string) :
  Str.split1 ";" (Str.strip line) = (Str.strip line, None) ->
  Str.split (Str.strip line) = first :: rest ->
  validate_gcode_command_string first = false ->
  exists g,
    parse_gcode_line line prev = Ok g
    /\ Gcode.command g = Some (Str.strip line)
    /\ Gcode.parameters g = []
    /\ fst (Gcode.__str__ g) = Str.strip line.
Proof.
  intros Hsemi Hsplit Hv. unfold parse_gcode_line.
  pose proof (strip_idempotent line) as Hid.
  destruct (strip_cases line) as [Hs | (c & r & Hs & Hc)].
  - rewrite Hs in Hsplit. discriminate.
  - rewrite Hs in *.
    replace (String.eqb (String c r) "") with false by reflexivity.
    rewrite !startswith_char.
    assert (Hc1 : Ascii.eqb c ";" = false).
    { destruct (Ascii.eqb c ";") eqn:He; [| reflexivity].
      simpl in Hsemi. rewrite He in Hsemi. discriminate. }
    assert (Hc2 : Ascii.eqb c Str.nl = false).
    { destruct (Ascii.eqb c Str.nl) eqn:He; [| reflexivity].
      apply Ascii.eqb_eq in He. subst c. discriminate. }
    rewrite Hc1, Hc2, Hsemi, Hid, Hsplit, Hv. simpl.
    eexists. split; [reflexivity |].
    destruct prev; repeat split; reflexivity.
Qed.

Lemma unrecognised_line_passes_through_witness :
  exists g,
    parse_gcode_line (rt := Decimal.runtime) " M862.3 P MINI " None = Ok g
    /\ fst (Gcode.__str__ (rt := Decimal.runtime) g) = "M862.3 P MINI".
Proof.
  destruct (unrecognised_line_passes_through (rt := Decimal.runtime)
              " M862.3 P MINI " None "M862.3" ["P"; "MINI"]
              eq_refl eq_refl eq_refl)
    as (g & H1 & _ & _ & H4).
  exists g. split; [exact H1 | exact H4].
Defined.

(** ** Parameters of a command *)

Lemma find_set_first_other (n m : string) (v : option number)
    (ps ps' : list Param.t) :
  String.eqb m n = false ->
  Gcode.set_first n v ps = Some ps' ->
  option_map Param.value (find (Gcode.has_name m) ps')
  = option_map Param.value (find (Gcode.has_name m) ps).
Proof.
  intros Hmn. revert ps'. induction ps as [| p ps IH]; simpl; intros ps' H;
    [discriminate |].
  destruct (Gcode.has_name n p) eqn:Hp.
  - inversion H. subst. simpl. unfold Gcode.has_name in *. simpl.
    apply String.eqb_eq in Hp. rewrite Hp, String.eqb_sym, Hmn. reflexivity.
  - destruct (Gcode.set_first n v ps) as [qs |]; simpl in H; [| discriminate].
    inversion H. subst. simpl.
    destruct (Gcode.has_name m p); [reflexivity | now apply IH].
Qed.

Lemma find_append_other (m : string) (q : Param.t) (ps : list Param.t) :
  Gcode.has_name m q = false ->
  find (Gcode.has_name m) (ps ++ [q]) = find (Gcode.has_name m) ps.
Proof.
  intros Hq. induction ps as [| p ps IH]; simpl; [now rewrite Hq |].
  destruct (Gcode.has_name m p); [reflexivity | exact IH].
Qed.

Lemma get_param_value (m : string) (g : Gcode.t) :
  Gcode.get_param m g
  = match option_map Param.value (find (Gcode.has_name m) (Gcode.parameters g)) with
    | Some v => v
    | None => None
    end.
Proof.
  unfold Gcode.get_param, Gcode.find_param.
  destruct (find (Gcode.has_name m) (Gcode.parameters g)); reflexivity.
Qed.

Lemma get_param_set_param_other (n m : string) (v : option number)
    (g : Gcode.t) :
  String.eqb m n = false ->
  Gcode.get_param m (Gcode.set_param n v g) = Gcode.get_param m g.
Proof.
  intros Hmn. rewrite !get_param_value. unfold Gcode.set_param.
  destruct (Gcode.set_first n v (Gcode.parameters g)) as [ps |] eqn:Hs; simpl.
  - now rewrite (find_set_first_other n m v _ _ Hmn Hs).
  - rewrite find_append_other; [reflexivity |].
    unfold Gcode.has_name. simpl. rewrite String.eqb_sym. exact Hmn.
Qed.

(** X7.  [get_param] after [set_param]: the parameter that was set has the
    new value, every parameter of another name has the value it had. *)
Theorem set_param_then_get_param (n m : string) (v : option number)
    (g : Gcode.t) :
  Gcode.get_param n (Gcode.set_param n v g) = v
  /\ (String.eqb m n = false ->
      Gcode.get_param m (Gcode.set_param n v g) = Gcode.get_param m g).
Proof.
  split; [apply get_param_set_param | apply get_param_set_param_other].
Qed.

Lemma set_param_then_get_param_witness :
  Gcode.get_param "X"
    (Gcode.set_param "E" (Some (PyInt 7)) (move_to_X10 (PyInt 1)))
  = Gcode.get_param "X" (move_to_X10 (PyInt 1)).
Proof.
  exact (proj2 (set_param_then_get_param "E" "X" (Some (PyInt 7))
                  (move_to_X10 (PyInt 1))) eq_refl).
Defined.

Lemma set_first_length (n : string) (v : option number) (ps ps' : list Param.t) :
  Gcode.set_first n v ps = Some ps' ->
  map Param.name ps' = map Param.name ps.
Proof.
  revert ps'. induction ps as [| p ps IH]; simpl; intros ps' H; [discriminate |].
  destruct (Gcode.has_name n p).
  - inversion H. reflexivity.
  - destruct (Gcode.set_first n v ps) as [qs |]; simpl in H; [| discriminate].
    inversion H. simpl. f_equal. now apply IH.
Qed.

Lemma set_first_some (n : string) (v : option number) (ps : list Param.t) :
  In n (map Param.name ps) -> Gcode.set_first n v ps <> None.
Proof.
  induction ps as [| p ps IH]; simpl; [tauto |].
  destruct (Gcode.has_name n p) eqn:Hp; [discriminate |].
  intros [Hin | Hin].
  - unfold Gcode.has_name in Hp. rewrite Hin, String.eqb_refl in Hp. discriminate.
  - destruct (Gcode.set_first n v ps); [discriminate | now apply IH in Hin].
Qed.

Lemma set_first_absent (n : string) (v : option number) (ps : list Param.t) :
  ~ In n (map Param.name ps) -> Gcode.set_first n v ps = None.
Proof.
  induction ps as [| p ps IH]; simpl; intros H; [reflexivity |].
  destruct (Gcode.has_name n p) eqn:Hp.
  - unfold Gcode.has_name in Hp. apply String.eqb_eq in Hp. tauto.
  - rewrite IH by tauto. reflexivity.
Qed.

(** X8.  [set_param] keeps the names and the order of the parameters; it
    appends the name at the end when no parameter had it. *)
Theorem set_param_names (n : string) (v : option number) (g : Gcode.t) :
  map Param.name (Gcode.parameters (Gcode.set_param n v g))
  = (if in_dec string_dec n (map Param.name (Gcode.parameters g))
     then map Param.name (Gcode.parameters g)
     else map Param.name (Gcode.parameters g) ++ [n])%list.
Proof.
  unfold Gcode.set_param.
  destruct (Gcode.set_first n v (Gcode.parameters g)) as [ps |] eqn:Hs; simpl.
  - destruct (in_dec string_dec n (map Param.name (Gcode.parameters g))) as [Hin | Hn].
    + now apply set_first_length in Hs.
    + rewrite (set_first_absent n v _ Hn) in Hs. discriminate.
  - destruct (in_dec string_dec n (map Param.name (Gcode.parameters g))) as [Hin | Hn].
    + apply (set_first_some n v) in Hin. contradiction.
    + rewrite map_app. reflexivity.
Qed.

(** ** Mode commands and other commands *)

Section Modes.

Context {rt : PyRuntime}.

Lemma parse_flags (line : string) (ps : State.t) (g : Gcode.t) :
  parse_gcode_line line (Some ps) = Ok g ->
  Gcode.previous_state g = Some ps
  /\ Gcode.move_is_absolute g = State.move_is_absolute ps
  /\ Gcode.extrude_is_absolute g = State.extrude_is_absolute ps.
Proof.
  rewrite parse_attach. intros H. break_result H. inversion H.
  repeat split; reflexivity.
Qed.

End Modes.

Lemma set_modes_same (ps : State.t) :
  State.set_modes (State.move_is_absolute ps) (State.extrude_is_absolute ps) ps
  = ps.
Proof. destruct ps. reflexivity. Qed.

(** X9.  [G90], [G91], [M82] and [M83] after a previous state give that
    state with one mode flag set and everything else as it was. *)
Theorem mode_commands_change_one_flag {rt : PyRuntime} (cfg : Config)
    (line : string) (prior : State.t) (g : Gcode.t) :
  parse_gcode_line line (Some prior) = Ok g ->
  (Gcode.command g = Some "G90" ->
   Gcode.state cfg (apply_modes cfg g)
   = Ok (State.set_modes true (State.extrude_is_absolute prior) prior))
  /\ (Gcode.command g = Some "G91" ->
      Gcode.state cfg (apply_modes cfg g)
      = Ok (State.set_modes false (State.extrude_is_absolute prior) prior))
  /\ (Gcode.command g = Some "M82" ->
      Gcode.state cfg (apply_modes cfg g)
      = Ok (State.set_modes (State.move_is_absolute prior) true prior))
  /\ (Gcode.command g = Some "M83" ->
      Gcode.state cfg (apply_modes cfg g)
      = Ok (State.set_modes (State.move_is_absolute prior) false prior)).
Proof.
  intros Hp. destruct (parse_flags line prior g Hp) as (Hprev & Hm & He).
  repeat split; intros Hc; literal_command g Hc; simpl in *;
    subst; reflexivity.
Qed.

Lemma mode_commands_change_one_flag_witness :
  Gcode.state default_config
    (apply_modes default_config
       (Gcode.mk (Some "M83") [] true true None (Some origin) None))
  = Ok (State.set_modes true false origin).
Proof.
  exact (proj2 (proj2 (proj2
           (mode_commands_change_one_flag (rt := Decimal.runtime)
              default_config "M83" origin
              (Gcode.mk (Some "M83") [] true true None (Some origin) None)
              eq_refl))) eq_refl).
Defined.

(** X10.  A command that is neither processed as a move nor one of the
    four mode commands leaves the machine state as it was. *)
Theorem other_commands_keep_state {rt : PyRuntime} (cfg : Config)
    (line : string) (ps : State.t) (g : Gcode.t) :
  parse_gcode_line line (Some ps) = Ok g ->
  processed cfg g = false ->
  Gcode.command_is "G90" g = false ->
  Gcode.command_is "G91" g = false ->
  Gcode.command_is "M82" g = false ->
  Gcode.command_is "M83" g = false ->
  Gcode.state cfg (apply_modes cfg g) = Ok ps.
Proof.
  intros Hp Hn H90 H91 H82 H83.
  destruct (parse_flags line ps g Hp) as (Hprev & Hm & He).
  assert (Hs : Gcode.state cfg g = Ok ps).
  { unfold Gcode.state. unfold processed in Hn. rewrite Hprev, Hn. simpl.
    rewrite Hm, He. unfold State.clone. now rewrite set_modes_same. }
  unfold apply_modes. rewrite H90, H91, H82, H83.
  destruct (Gcode.command_is "M221" g && force_full_flow cfg) eqn:HM;
    [| exact Hs].
  apply andb_true_iff in HM. destruct HM as [HM _].
  apply command_is_eq in HM.
  pose proof (command_set_param "S" (Some (PyInt 100)) g) as Hcmd.
  unfold Gcode.state.
  assert (Hprev' : Gcode.previous_state
                     (Gcode.set_param "S" (Some (PyInt 100)) g) = Some ps).
  { unfold Gcode.set_param. destruct (Gcode.set_first _ _ _); exact Hprev. }
  assert (Hm' : Gcode.move_is_absolute
                  (Gcode.set_param "S" (Some (PyInt 100)) g)
                = State.move_is_absolute ps).
  { unfold Gcode.set_param. destruct (Gcode.set_first _ _ _); exact Hm. }
  assert (He' : Gcode.extrude_is_absolute
                  (Gcode.set_param "S" (Some (PyInt 100)) g)
                = State.extrude_is_absolute ps).
  { unfold Gcode.set_param. destruct (Gcode.set_first _ _ _); exact He. }
  rewrite Hprev', Hm', He'.
  unfold Gcode.is_G123, Gcode.command_is. rewrite Hcmd, HM. simpl.
  unfold State.clone. now rewrite set_modes_same.
Qed.

Lemma other_commands_keep_state_witness :
  Gcode.state default_config
    (apply_modes default_config
       (Gcode.mk (Some "M104") [Param.mk "S" (Some (PyInt 215))]
          true true None (Some origin) None))
  = Ok origin.
Proof.
  exact (other_commands_keep_state (rt := Decimal.runtime) default_config
           "M104 S215" origin
           (Gcode.mk (Some "M104") [Param.mk "S" (Some (PyInt 215))]
              true true None (Some origin) None)
           eq_refl eq_refl eq_refl eq_refl eq_refl eq_refl).
Defined.

(** ** The shape of a command token *)

Lemma skip_digits_prefix (s : string) :
  exists ds, s = ds ++ skip_digits s /\ Decimal.all_digits ds = true.
Proof.
  induction s as [| c s (ds & Hs & Hd)]; simpl.
  - exists "". split; reflexivity.
  - destruct (is_digit c) eqn:Hc.
    + exists (String c ds). simpl. rewrite Hc. split; [now f_equal | exact Hd].
    + exists "". split; reflexivity.
Qed.

Lemma skip_digits_append (ds tail : string) :
  Decimal.all_digits ds = true ->
  skip_digits (ds ++ tail) = skip_digits tail.
Proof.
  induction ds as [| c ds IH]; simpl; intros H; [reflexivity |].
  apply andb_true_iff in H. destruct H as [Hc Hd]. rewrite Hc. now apply IH.
Qed.

(** X6.  [validate_gcode_command_string] accepts exactly one ASCII letter
    followed by one or more ASCII digits, optionally followed by a final
    newline. *)
Theorem validate_accepts_letter_and_digits (s : string) :
  validate_gcode_command_string s = true <->
  exists c d ds tail,
    s = String c (String d ds) ++ tail
    /\ is_letter c = true /\ is_digit d = true
    /\ Decimal.all_digits ds = true
    /\ (tail = "" \/ tail = String Str.nl "").
Proof.
  split.
  - destruct s as [| c [| d rest]]; simpl; try discriminate.
    intros H. apply andb_true_iff in H. destruct H as [H Ht].
    apply andb_true_iff in H. destruct H as [Hc Hd].
    destruct (skip_digits_prefix rest) as (ds & Hr & Hds).
    exists c, d, ds, (skip_digits rest). simpl. rewrite <- Hr.
    repeat split; try assumption.
    apply orb_true_iff in Ht. destruct Ht as [Ht | Ht];
      apply String.eqb_eq in Ht; auto.
  - intros (c & d & ds & tail & -> & Hc & Hd & Hds & Ht). simpl.
    rewrite Hc, Hd, (skip_digits_append ds tail Hds).
    destruct Ht as [-> | ->]; reflexivity.
Qed.

Lemma validate_accepts_letter_and_digits_witness :
  validate_gcode_command_string "M221" = true.
Proof.
  apply (proj2 (validate_accepts_letter_and_digits "M221")).
  exists "M"%char, "2"%char, "21", "".
  repeat split; auto.
Defined.


Lemma iadd_known (a b : option number) :
  a <> None -> b <> None -> exists c, iadd a b = Ok c.
Proof. destruct a, b; simpl; intros; try congruence; eauto. Qed.

Lemma state_parameter_known (s : State.t) (p : Param.t) :
  axes_known s ->
  (is_axis (Param.name p) = true -> Param.value p <> None) ->
  exists s', Gcode.state_parameter s p = Ok s' /\ axes_known s'.
Proof.
  intros (HX & HY & HZ & HE) Hp. unfold Gcode.state_parameter, is_axis in *.
  destruct (String.eqb (Param.name p) "X") eqn:EX.
  { assert (Hv : Param.value p <> None) by (apply Hp; reflexivity).
    destruct (State.move_is_absolute s).
    - eexists. split; [reflexivity |]. repeat split; assumption.
    - destruct (iadd_known _ _ HX Hv) as [c ->]. simpl.
      eexists. split; [reflexivity |]. repeat split; simpl; congruence. }
  destruct (String.eqb (Param.name p) "Y") eqn:EY.
  { assert (Hv : Param.value p <> None) by (apply Hp; reflexivity).
    destruct (State.move_is_absolute s).
    - eexists. split; [reflexivity |]. repeat split; assumption.
    - destruct (iadd_known _ _ HY Hv) as [c ->]. simpl.
      eexists. split; [reflexivity |]. repeat split; simpl; congruence. }
  destruct (String.eqb (Param.name p) "Z") eqn:EZ.
  { assert (Hv : Param.value p <> None) by (apply Hp; reflexivity).
    destruct (State.move_is_absolute s).
    - eexists. split; [reflexivity |]. repeat split; assumption.
    - destruct (iadd_known _ _ HZ Hv) as [c ->]. simpl.
      eexists. split; [reflexivity |]. repeat split; simpl; congruence. }
  destruct (String.eqb (Param.name p) "E") eqn:EE.
  { assert (Hv : Param.value p <> None) by (apply Hp; reflexivity).
    destruct (State.extrude_is_absolute s).
    - eexists. split; [reflexivity |]. repeat split; assumption.
    - destruct (iadd_known _ _ HE Hv) as [c ->]. simpl.
      eexists. split; [reflexivity |]. repeat split; simpl; congruence. }
  destruct (String.eqb (Param.name p) "F");
    eexists; (split; [reflexivity |]); repeat split; assumption.
Qed.

Lemma state_parameters_known (ps : list Param.t) (s : State.t) :
  axes_known s -> valued_axes ps ->
  exists s', Gcode.state_parameters s ps = Ok s' /\ axes_known s'.
Proof.
  revert s. induction ps as [| p ps IH]; simpl; intros s Hs Hv.
  - eauto.
  - destruct (state_parameter_known s p Hs) as (s1 & -> & H1).
    { apply Hv. now left. }
    simpl. apply IH; [exact H1 |]. intros q Hq. apply Hv. now right.
Qed.

Lemma origin_known : axes_known origin.
Proof. repeat split; discriminate. Qed.

Lemma state_known (cfg : Config) (g : Gcode.t) :
  known_or_first (Gcode.previous_state g) ->
  valued_axes (Gcode.parameters g) ->
  exists ns, Gcode.state cfg g = Ok ns /\ axes_known ns.
Proof.
  intros Hk Hv. unfold Gcode.state.
  set (s0 := match Gcode.previous_state g with
             | Some ps => State.clone ps
             | None => _
             end).
  assert (H0 : axes_known s0).
  { unfold s0. destruct (Gcode.previous_state g); [exact Hk | exact origin_known]. }
  destruct (Gcode.is_G123 g || Gcode.command_is "G0" g && use_for_travel_moves cfg).
  - destruct (state_parameters_known _ s0 H0 Hv) as (s' & -> & Hs').
    simpl. eexists. split; [reflexivity | exact Hs'].
  - simpl. eexists. split; [reflexivity | exact H0].
Qed.

Lemma valued_axes_forallb (ps : list Param.t) :
  forallb valued_param ps = true -> valued_axes ps.
Proof.
  intros H p Hin Ha. rewrite forallb_forall in H. specialize (H p Hin).
  unfold valued_param in H. rewrite Ha in H. simpl in H.
  destruct (Param.value p); [discriminate | discriminate H].
Qed.

Lemma valued_axes_set_first (n : string) (v : number) (ps ps' : list Param.t) :
  valued_axes ps -> Gcode.set_first n (Some v) ps = Some ps' -> valued_axes ps'.
Proof.
  revert ps'. induction ps as [| p ps IH]; simpl; intros ps' Hv H; [discriminate |].
  destruct (Gcode.has_name n p).
  - inversion H. subst. intros q [<- | Hq] Ha; [discriminate |].
    apply Hv; [now right | exact Ha].
  - destruct (Gcode.set_first n (Some v) ps) as [qs |] eqn:Hs; simpl in H;
      [| discriminate].
    inversion H. subst. intros q [<- | Hq] Ha.
    + apply Hv; [now left | exact Ha].
    + apply (IH qs); [| reflexivity | exact Hq | exact Ha].
      intros r Hr. apply Hv. now right.
Qed.

Lemma valued_axes_set_param (n : string) (v : number) (g : Gcode.t) :
  valued_axes (Gcode.parameters g) ->
  valued_axes (Gcode.parameters (Gcode.set_param n (Some v) g)).
Proof.
  intros Hv. unfold Gcode.set_param.
  destruct (Gcode.set_first n (Some v) (Gcode.parameters g)) as [ps |] eqn:Hs;
    simpl.
  - eapply valued_axes_set_first; eassumption.
  - intros q Hq Ha. apply in_app_or in Hq. destruct Hq as [Hq | [<- | []]].
    + now apply Hv.
    + discriminate.
Qed.

Lemma valued_axes_apply_modes (cfg : Config) (g : Gcode.t) :
  valued_axes (Gcode.parameters g) ->
  valued_axes (Gcode.parameters (apply_modes cfg g)).
Proof.
  intros Hv. unfold apply_modes.
  repeat match goal with
         | |- context [if ?b then _ else _] => destruct b
         end; try exact Hv.
  now apply valued_axes_set_param.
Qed.

Lemma compensate_total (cfg : Config) (travel : bool) (g : Gcode.t)
    (ps : State.t) (x : number) (e : option number) (s : number) :
  State.X ps <> None ->
  exists out, compensate cfg travel g ps x e s = Ok out.
Proof.
  intros HX. destruct (State.X ps) as [px |] eqn:Hpx; [| congruence].
  unfold compensate, extruder_position_adjustment, sub_opt. rewrite Hpx. simpl.
  destruct (negb travel || negb (freeze_settle_on_travel cfg));
    destruct e; destruct (use_for_travel_moves cfg); destruct (verbose cfg);
    eauto.
Qed.

Section NeverRaises.

Context {rt : PyRuntime}.

Lemma rewrite_command_total (cfg : Config) (st : Loop) (g : Gcode.t) :
  known_or_first (Gcode.previous_state g) ->
  exists out, rewrite_command cfg st g = Ok out.
Proof.
  intros Hk. unfold rewrite_command. fold (converted cfg st g).
  destruct (Gcode.is_G123 (converted cfg st g)); [| eauto].
  unfold motion. rewrite converted_previous_state.
  destruct (Gcode.previous_state g) as [ps |]; [| eauto].
  destruct (Gcode.get_param "X" (converted cfg st g)); [| eauto].
  apply compensate_total. apply Hk.
Qed.

Lemma loop_body_total (cfg : Config) (st : Loop) (line : string) :
  known_or_first (last_state st) ->
  no_bare_axis line = true ->
  exists st', loop_body cfg st line = Ok st' /\ known_or_first (last_state st').
Proof.
  intros Hk Hl. rewrite loop_body_eq, parse_attach.
  unfold no_bare_axis in Hl.
  destruct (parse_total line None) as [g0 Hg0]. rewrite Hg0 in *. simpl.
  set (g := apply_modes cfg (attach (last_state st) g0)).
  destruct (skipped cfg g); [eauto |].
  assert (Hprev : Gcode.previous_state g = last_state st).
  { unfold g. rewrite previous_state_apply_modes.
    destruct (last_state st); [reflexivity |].
    exact (parse_previous_state _ _ _ Hg0). }
  assert (Hv : valued_axes (Gcode.parameters g)).
  { unfold g. apply valued_axes_apply_modes.
    apply valued_axes_forallb.
    destruct (last_state st); exact Hl. }
  destruct (state_known cfg g) as (ns & -> & Hns);
    [now rewrite Hprev | exact Hv |].
  destruct (rewrite_command_total cfg st g) as [out ->];
    [now rewrite Hprev |].
  simpl. eexists. split; [reflexivity |].
  destruct out as [[[g' s'] app] w]. exact Hns.
Qed.

Lemma loop_total (cfg : Config) (lines : list string) (st : Loop) :
  known_or_first (last_state st) ->
  forallb no_bare_axis lines = true ->
  exists st', loop cfg st lines = Ok st'.
Proof.
  revert st. induction lines as [| line rest IH]; simpl; intros st Hk Hl.
  - eauto.
  - apply andb_true_iff in Hl. destruct Hl as [Hl Hr].
    destruct (loop_body_total cfg st line Hk Hl) as (st1 & -> & H1).
    simpl. now apply IH.
Qed.

End NeverRaises.

(** X11.  The pass never raises on a file in which no parameter named
    [X], [Y], [Z] or [E] lacks a value: every axis of the state stays a
    number. *)
Theorem pass_never_raises_without_bare_axes {rt : PyRuntime} (cfg : Config)
    (lines : list string) :
  forallb no_bare_axis lines = true ->
  exists st, run cfg lines = Ok st.
Proof.
  intros H. apply loop_total; [exact I | exact H].
Qed.

Lemma pass_never_raises_without_bare_axes_witness :
  exists st,
    run (rt := Decimal.runtime) default_config
      ["G91"; "G1 X5 Y-2 E0.3"; "M83"; "G1 X-1 E0.1 F1800"; "G28 W"] = Ok st.
Proof.
  apply (pass_never_raises_without_bare_axes (rt := Decimal.runtime)).
  vm_compute. reflexivity.
Defined.

Lemma state_parameter_relative (s : State.t) (p : Param.t) :
  State.move_is_absolute s = false ->
  Gcode.state_parameter s p = Raise TypeError
  \/ exists s', Gcode.state_parameter s p = Ok s'
                /\ State.move_is_absolute s' = false.
Proof.
  intros Hm. unfold Gcode.state_parameter, iadd. rewrite Hm.
  repeat match goal with
         | |- context [if ?b then _ else _] => destruct b
         | |- context [match ?x with _ => _ end] => destruct x
         end; simpl; eauto.
Qed.

Lemma state_parameter_bare (s : State.t) (p : Param.t) :
  State.move_is_absolute s = false ->
  bare_position p = true ->
  Gcode.state_parameter s p = Raise TypeError.
Proof.
  intros Hm Hb. unfold bare_position in Hb.
  apply andb_true_iff in Hb. destruct Hb as [Hn Hv].
  destruct (Param.value p) eqn:Hval; [discriminate |].
  unfold Gcode.state_parameter, iadd. rewrite Hm, Hval.
  destruct (String.eqb (Param.name p) "X");
    [destruct (State.X s); reflexivity |].
  destruct (String.eqb (Param.name p) "Y");
    [destruct (State.Y s); reflexivity |].
  destruct (String.eqb (Param.name p) "Z");
    [destruct (State.Z s); reflexivity |].
  discriminate.
Qed.

Lemma state_parameters_bare (ps : list Param.t) (s : State.t) :
  State.move_is_absolute s = false ->
  existsb bare_position ps = true ->
  Gcode.state_parameters s ps = Raise TypeError.
Proof.
  revert s. induction ps as [| p ps IH]; simpl; intros s Hm H; [discriminate |].
  destruct (bare_position p) eqn:Hb.
  - rewrite (state_parameter_bare s p Hm Hb). reflexivity.
  - simpl in H.
    destruct (state_parameter_relative s p Hm)
      as [-> | (s' & -> & Hm')]; [reflexivity |].
    simpl. now apply IH.
Qed.

(** X12.  In relative position mode a processed command with an [X], [Y]
    or [Z] letter without a value makes [Gcode.state] raise [TypeError]. *)
Theorem bare_position_in_relative_mode_raises (cfg : Config) (g : Gcode.t)
    (ps : State.t) :
  processed cfg g = true ->
  Gcode.previous_state g = Some ps ->
  State.move_is_absolute ps = false ->
  existsb bare_position (Gcode.parameters g) = true ->
  Gcode.state cfg g = Raise TypeError.
Proof.
  intros Hp Hprev Hm Hb. unfold Gcode.state. rewrite Hprev.
  unfold processed in Hp. rewrite Hp. unfold State.clone.
  rewrite (state_parameters_bare _ ps Hm Hb). reflexivity.
Qed.

Lemma bare_position_in_relative_mode_raises_witness :
  Gcode.state default_config
    (Gcode.mk (Some "G1") [Param.mk "Y" (Some (PyInt 1)); Param.mk "X" None]
       false true None (Some (State.set_modes false true origin)) None)
  = Raise TypeError.
Proof.
  exact (bare_position_in_relative_mode_raises default_config
           (Gcode.mk (Some "G1")
              [Param.mk "Y" (Some (PyInt 1)); Param.mk "X" None]
              false true None (Some (State.set_modes false true origin)) None)
           (State.set_modes false true origin)
           eq_refl eq_refl eq_refl eq_refl).
Defined.

(** X13.  When the previous state has no [X] value, a processed command
    with an [X] value makes the loop raise [TypeError]. *)
Theorem unknown_previous_X_raises {rt : PyRuntime} (cfg : Config) (st : Loop) (line : string)
    (g : Gcode.t) (ps ns : State.t) (x : number) :
  parse_gcode_line line (last_state st) = Ok g ->
  processed cfg g = true ->
  last_state st = Some ps ->
  State.X ps = None ->
  Gcode.get_param "X" g = Some x ->
  Gcode.state cfg g = Ok ns ->
  loop_body cfg st line = Raise TypeError.
Proof.
  intros Hp Hpr Hl HX Hx Hs.
  rewrite (loop_body_processed cfg st line g ns Hp Hpr Hs).
  unfold motion.
  rewrite converted_previous_state, !converted_get_param, Hx.
  rewrite (parse_previous_state _ _ _ Hp), Hl.
  unfold compensate, extruder_position_adjustment. rewrite HX. reflexivity.
Qed.

Lemma unknown_previous_X_raises_witness :
  loop_body (rt := Decimal.runtime) default_config
    (mkLoop [] LayerNone LayerNone (Some (State.set_X None origin))
       2 (PyFloat 0) 1 [])
    "G1 X5 E1"
  = Raise TypeError.
Proof.
  exact (unknown_previous_X_raises (rt := Decimal.runtime) default_config
           (mkLoop [] LayerNone LayerNone (Some (State.set_X None origin))
              2 (PyFloat 0) 1 [])
           "G1 X5 E1"
           (Gcode.mk (Some "G1")
              [Param.mk "X" (Some (PyInt 5)); Param.mk "E" (Some (PyInt 1))]
              true true None (Some (State.set_X None origin)) None)
           (State.set_X None origin)
           (State.set_E (Some (PyInt 1))
              (State.set_X (Some (PyInt 5)) origin))
           (PyInt 5) eq_refl eq_refl eq_refl eq_refl eq_refl eq_refl).
Defined.

(** ** Direction of the settling *)

(** X14.  With non-negative rates and the accumulator within its bound, a
    move to the right does not lower the accumulator, a move to the left
    does not raise it, and a move that keeps [X] leaves it as it is. *)
Theorem settle_follows_direction (cfg : Config) (s x_change : number) :
  (0 <= to_Q (settling_positive cfg))%Q ->
  (0 <= to_Q (settling_negative cfg))%Q ->
  in_bounds cfg s ->
  ((0 < to_Q x_change)%Q -> (to_Q s <= to_Q (settle cfg s x_change))%Q)
  /\ ((to_Q x_change < 0)%Q -> (to_Q (settle cfg s x_change) <= to_Q s)%Q)
  /\ ((to_Q x_change == 0)%Q -> settle cfg s x_change = s).
Proof.
  intros Hp Hn [Hlo Hhi]. unfold settle, Num.gt, Num.lt.
  change (to_Q (PyInt 0)) with 0%Q.
  pose proof (to_Q_add s (Num.mul (settling_positive cfg) x_change)) as Ap.
  pose proof (to_Q_add s (Num.mul (settling_negative cfg) x_change)) as An.
  rewrite to_Q_mul in Ap, An.
  repeat split.
  - intros Hx. apply Qltb_lt in Hx. rewrite Hx. apply Qltb_lt in Hx.
    destruct (min_spec (Num.add s (Num.mul (settling_positive cfg) x_change))
                (max_settling_positive cfg)) as [[-> _] | [-> _]];
      [exact Hhi |].
    rewrite Ap.
    assert (Hm : (0 <= to_Q (settling_positive cfg) * to_Q x_change)%Q)
      by (apply Qmult_le_0_compat; lra).
    lra.
  - intros Hx.
    assert (H0 : Qltb 0 (to_Q x_change) = false) by (apply Qltb_ge; lra).
    rewrite H0. apply Qltb_lt in Hx. rewrite Hx. apply Qltb_lt in Hx.
    destruct (max_spec (Num.add s (Num.mul (settling_negative cfg) x_change))
                (PyInt 0)) as [[-> _] | [-> _]];
      [exact Hlo |].
    rewrite An.
    assert (Hm : (0 <= to_Q (settling_negative cfg) * - to_Q x_change)%Q)
      by (apply Qmult_le_0_compat; lra).
    assert (He : (to_Q (settling_negative cfg) * - to_Q x_change
                  == - (to_Q (settling_negative cfg) * to_Q x_change))%Q)
      by ring.
    rewrite He in Hm. lra.
  - intros Hx.
    assert (H0 : Qltb 0 (to_Q x_change) = false) by (apply Qltb_ge; lra).
    assert (H1 : Qltb (to_Q x_change) 0 = false) by (apply Qltb_ge; lra).
    rewrite H0, H1. reflexivity.
Qed.

Lemma settle_follows_direction_witness :
  (to_Q (PyFloat (1 # 10))
   <= to_Q (settle settling_config (PyFloat (1 # 10)) (PyInt 5)))%Q.
Proof.
  assert (Hp : (0 <= to_Q (settling_positive settling_config))%Q)
    by (vm_compute; discriminate).
  assert (Hn : (0 <= to_Q (settling_negative settling_config))%Q)
    by (vm_compute; discriminate).
  assert (Hb : in_bounds settling_config (PyFloat (1 # 10)))
    by (split; vm_compute; discriminate).
  assert (Hx : (0 < to_Q (PyInt 5))%Q) by reflexivity.
  exact (proj1 (settle_follows_direction settling_config (PyFloat (1 # 10))
                  (PyInt 5) Hp Hn Hb) Hx).
Defined.

(** ** Hardlimit inside its bound *)

(** X17.  An adjustment within [[-e * h, e * h]] goes through the two
    limiting lines unchanged. *)
Theorem hardlimit_keeps_small_adjustment (cfg : Config) (adj e : number) :
  (- (to_Q e * to_Q (adjustment_hardlimit_factor cfg)) <= to_Q adj)%Q ->
  (to_Q adj <= to_Q e * to_Q (adjustment_hardlimit_factor cfg))%Q ->
  hardlimit cfg adj e = adj.
Proof.
  intros Hlo Hhi. unfold hardlimit.
  set (h := adjustment_hardlimit_factor cfg) in *.
  assert (H1 : Num.min adj (Num.mul e h) = adj).
  { unfold Num.min, Num.lt.
    assert (H : Qltb (to_Q (Num.mul e h)) (to_Q adj) = false).
    { apply Qltb_ge. now rewrite to_Q_mul. }
    now rewrite H. }
  rewrite H1. unfold Num.max, Num.gt.
  assert (H : Qltb (to_Q adj) (to_Q (Num.mul (Num.neg e) h)) = false).
  { apply Qltb_ge. rewrite to_Q_mul, to_Q_neg. lra. }
  now rewrite H.
Qed.

Lemma hardlimit_keeps_small_adjustment_witness :
  hardlimit default_config (PyFloat (385 # 100000)) (PyFloat (5 # 10))
  = PyFloat (385 # 100000).
Proof.
  apply hardlimit_keeps_small_adjustment; vm_compute; discriminate.
Defined.

(** ** A move that keeps X *)

(** X18.  When the new [X] equals the previous [X], the adjustment is zero
    and the accumulator is not touched. *)
Theorem no_X_change_no_adjustment (cfg : Config) (travel : bool)
    (x px s : number) :
  (to_Q x == to_Q px)%Q ->
  (to_Q (adjustment cfg travel x px s) == 0)%Q
  /\ settling_after cfg travel s (Num.sub x px) = s.
Proof.
  intros H. split.
  - unfold adjustment, relative_adjustment.
    rewrite to_Q_mul, to_Q_sub, H. ring.
  - unfold settling_after, settle, Num.gt, Num.lt.
    change (to_Q (PyInt 0)) with 0%Q.
    assert (H0 : Qltb 0 (to_Q (Num.sub x px)) = false).
    { apply Qltb_ge. rewrite to_Q_sub, H. lra. }
    assert (H1 : Qltb (to_Q (Num.sub x px)) 0 = false).
    { apply Qltb_ge. rewrite to_Q_sub, H. lra. }
    rewrite H0, H1. destruct (negb travel || _); reflexivity.
Qed.

Lemma no_X_change_no_adjustment_witness :
  (to_Q (adjustment default_config false (PyFloat (100 # 10)) (PyInt 10)
           (PyFloat 0)) == 0)%Q.
Proof.
  exact (proj1 (no_X_change_no_adjustment default_config false
                  (PyFloat (100 # 10)) (PyInt 10) (PyFloat 0) eq_refl)).
Defined.

(** ** Rounding before rendering *)

Lemma round_half_even_exact (z : Z) (P : positive) :
  round_half_even ((z # P) * inject_Z (Z.pos P)) = z.
Proof.
  unfold round_half_even.
  change (Qnum ((z # P) * inject_Z (Z.pos P))) with (z * Z.pos P)%Z.
  change (Qden ((z # P) * inject_Z (Z.pos P))) with (P * 1)%positive.
  rewrite Pos.mul_1_r, Z.mod_mul, Z.div_mul by lia.
  simpl. reflexivity.
Qed.

Lemma round_idempotent (n : number) (p : nat) :
  Num.round (Num.round n p) p = Num.round n p.
Proof.
  destruct n as [z | q]; simpl; [reflexivity |].
  f_equal. unfold round_digits. rewrite round_half_even_exact. reflexivity.
Qed.

(** X19.  [_format_number] gives the same text for a value and for that
    value already rounded to the precision. *)
Theorem format_number_of_rounded (n : number) (p : nat) :
  Gcode._format_number (Num.round n p) p = Gcode._format_number n p.
Proof.
  unfold Gcode._format_number. now rewrite round_idempotent.
Qed.

(** ** What the compensation does to the command *)

Lemma compensate_gcode (cfg : Config) (travel : bool) (g g' : Gcode.t)
    (ps : State.t) (x : number) (e : option number) (s s' : number)
    (app : list item) (w : list number) :
  compensate cfg travel g ps x e s = Ok (g', s', app, w) ->
  g' = g \/ exists v, g' = Gcode.set_param "E" v g.
Proof.
  unfold compensate. intros H.
  break_result H. break_result H. break_result H.
  destruct (negb travel || negb (freeze_settle_on_travel cfg));
    destruct e; destruct (use_for_travel_moves cfg); destruct (verbose cfg);
    inversion H; subst; eauto.
Qed.

Lemma compensate_frozen (cfg : Config) (g g' : Gcode.t)
    (ps : State.t) (x : number) (e : option number) (s s' : number)
    (app : list item) (w : list number) :
  freeze_settle_on_travel cfg = true ->
  compensate cfg true g ps x e s = Ok (g', s', app, w) ->
  s' = s /\ w = [].
Proof.
  unfold compensate. intros Hf H. rewrite Hf in H.
  break_result H. break_result H. break_result H. simpl in H.
  destruct e; destruct (use_for_travel_moves cfg); destruct (verbose cfg);
    inversion H; subst; split; reflexivity.
Qed.

Lemma rewrite_command_gcode (cfg : Config) (st : Loop) (g g' : Gcode.t)
    (s' : number) (app : list item) (w : list number) :
  rewrite_command cfg st g = Ok (g', s', app, w) ->
  g' = converted cfg st g
  \/ exists v, g' = Gcode.set_param "E" v (converted cfg st g).
Proof.
  unfold rewrite_command. fold (converted cfg st g). unfold motion. intros H.
  repeat match type of H with
         | context [if ?b then _ else _] => destruct b
         | context [match ?x with _ => _ end] => destruct x
         end;
    try (inversion H; subst; left; reflexivity).
  eapply compensate_gcode; eassumption.
Qed.

Lemma converted_command_any (cfg : Config) (st : Loop) (g : Gcode.t) :
  Gcode.command (converted cfg st g)
  = if Gcode.command_is "G0" g && use_for_travel_moves cfg
    then Some "G1" else Gcode.command g.
Proof.
  unfold converted, convert_travel.
  change (Gcode.command_is "G0" (Gcode.set_num_line (Some (num_line st)) g))
    with (Gcode.command_is "G0" g).
  destruct (Gcode.command_is "G0" g && use_for_travel_moves cfg); reflexivity.
Qed.

Lemma converted_num_line (cfg : Config) (st : Loop) (g : Gcode.t) :
  Gcode.num_line (converted cfg st g) = Some (num_line st).
Proof.
  unfold converted, convert_travel.
  destruct (Gcode.command_is "G0" _ && use_for_travel_moves cfg); reflexivity.
Qed.

Lemma num_line_set_param (n : string) (v : option number) (g : Gcode.t) :
  Gcode.num_line (Gcode.set_param n v g) = Gcode.num_line g.
Proof.
  unfold Gcode.set_param. destruct (Gcode.set_first n v (Gcode.parameters g));
    reflexivity.
Qed.

Lemma rewrite_command_num_line (cfg : Config) (st : Loop) (g g' : Gcode.t)
    (s' : number) (app : list item) (w : list number) :
  rewrite_command cfg st g = Ok (g', s', app, w) ->
  Gcode.num_line g' = Some (num_line st)
  /\ Gcode.command g'
     = if Gcode.command_is "G0" g && use_for_travel_moves cfg
       then Some "G1" else Gcode.command g.
Proof.
  intros H. apply rewrite_command_gcode in H.
  destruct H as [-> | [v ->]];
    rewrite ?num_line_set_param, ?command_set_param;
    split; [apply converted_num_line | apply converted_command_any
           | apply converted_num_line | apply converted_command_any].
Qed.

(** ** Line numbers *)

Section Numbering.

Context {rt : PyRuntime}.

Lemma loop_body_numbered (cfg : Config) (st st' : Loop) (line : string) :
  numbered st -> loop_body cfg st line = Ok st' -> numbered st'.
Proof.
  intros (Hm & Hn & Hp) H. apply loop_body_inv in H.
  destruct H as (g & _ & [[_ ->] | (_ & ns & out & _ & Hout & ->)]).
  - repeat split; assumption.
  - destruct out as [[[g' s'] app] w].
    pose proof (rewrite_command_appended cfg st _ _ _ _ _ Hout) as [Hf _].
    apply rewrite_command_num_line in Hout. destruct Hout as [Hnl _].
    unfold numbered, advance. simpl gcodes. simpl num_line. simpl parse_progress.
    rewrite !filter_app, Hf. simpl. rewrite !length_app, !map_app. simpl.
    rewrite Hm, Hnl, Hn. rewrite Nat.add_1_r.
    split; [| split].
    + rewrite seq_S, map_app. reflexivity.
    + reflexivity.
    + now rewrite Hp.
Qed.

Lemma loop_numbered (cfg : Config) (lines : list string) (st st' : Loop) :
  numbered st -> loop cfg st lines = Ok st' -> numbered st'.
Proof.
  revert st. induction lines as [| line rest IH]; simpl; intros st Hst H.
  - inversion H. subst. exact Hst.
  - break_result H. eapply IH; [| exact H].
    eapply loop_body_numbered; eassumption.
Qed.

End Numbering.

(** X20.  The commands of the output carry the line numbers 1, 2, 3, ...
    in order; [num_line] and [parse_progress] count them. *)
Theorem commands_are_numbered_from_one {rt : PyRuntime} (cfg : Config)
    (lines : list string) (st : Loop) :
  run cfg lines = Ok st ->
  map item_num_line (filter is_command (gcodes st))
  = map Some (seq 1 (List.length (filter is_command (gcodes st))))
  /\ num_line st = S (List.length (filter is_command (gcodes st)))
  /\ parse_progress st = List.length (filter is_command (gcodes st)).
Proof.
  intros H. apply (loop_numbered cfg lines loop_init st); [| exact H].
  repeat split; reflexivity.
Qed.

Lemma commands_are_numbered_from_one_witness :
  exists st,
    run (rt := Decimal.runtime) default_config
      ["G90"; ""; "G0 X20"; ";WIDTH:0.4"; "G1 X30 E1"] = Ok st
    /\ map item_num_line (filter is_command (gcodes st))
       = [Some 1; Some 2; Some 3]%nat.
Proof.
  eexists. split; [vm_compute; reflexivity |].
  destruct (commands_are_numbered_from_one (rt := Decimal.runtime)
              default_config
              ["G90"; ""; "G0 X20"; ";WIDTH:0.4"; "G1 X30 E1"] _
              ltac:(vm_compute; reflexivity)) as [H _].
  rewrite H. vm_compute. reflexivity.
Defined.

Section OutputCommands.

Context {rt : PyRuntime}.

Lemma loop_body_output (cfg : Config) (st st' : Loop) (line : string) :
  (forall g, In (ItemGcode g) (gcodes st) -> well_formed_output cfg g) ->
  loop_body cfg st line = Ok st' ->
  forall g, In (ItemGcode g) (gcodes st') -> well_formed_output cfg g.
Proof.
  intros Hst H. apply loop_body_inv in H.
  destruct H as (g0 & _ & [[_ ->] | (Hs & ns & out & _ & Hout & ->)]);
    [exact Hst |].
  destruct out as [[[g' s'] app] w].
  pose proof (rewrite_command_appended cfg st _ _ _ _ _ Hout) as [Hf _].
  apply rewrite_command_num_line in Hout. destruct Hout as [_ Hc].
  unfold advance. simpl gcodes. intros g Hin.
  apply in_app_or in Hin. destruct Hin as [Hin | Hin]; [now apply Hst |].
  apply in_app_or in Hin. destruct Hin as [Hin | [Hin | []]].
  - assert (Hi : In (ItemGcode g) (filter is_command app))
      by (apply filter_In; split; [exact Hin | reflexivity]).
    rewrite Hf in Hi. contradiction.
  - inversion Hin. subst g'. clear Hin.
    unfold skipped in Hs.
    destruct (Gcode.command (apply_modes cfg g0)) as [c |] eqn:Hcmd;
      [| discriminate].
    unfold Gcode.command_is in Hc. rewrite Hcmd in Hc.
    destruct (String.eqb c "G0" && use_for_travel_moves cfg) eqn:Ht.
    + exists "G1". split; [exact Hc |]. split; [discriminate |].
      intros _. reflexivity.
    + exists c. split; [exact Hc |]. split.
      * intros Hu ->. rewrite Hu in Ht. discriminate.
      * intros Hr. rewrite Hr in Hs. exact Hs.
Qed.

Lemma loop_output (cfg : Config) (lines : list string) (st st' : Loop) :
  (forall g, In (ItemGcode g) (gcodes st) -> well_formed_output cfg g) ->
  loop cfg st lines = Ok st' ->
  forall g, In (ItemGcode g) (gcodes st') -> well_formed_output cfg g.
Proof.
  revert st. induction lines as [| line rest IH]; simpl; intros st Hst H.
  - inversion H. subst. exact Hst.
  - break_result H. eapply IH; [| exact H].
    eapply loop_body_output; eassumption.
Qed.

End OutputCommands.

(** X21.  Every command of the output has a command token; none is [G0]
    under [use_for_travel_moves], and none starts with [;WIDTH] under
    [remove_width_comments]. *)
Theorem output_commands_are_well_formed {rt : PyRuntime} (cfg : Config)
    (lines : list string) (st : Loop) (g : Gcode.t) :
  run cfg lines = Ok st ->
  In (ItemGcode g) (gcodes st) ->
  exists c,
    Gcode.command g = Some c
    /\ (use_for_travel_moves cfg = true -> c <> "G0")
    /\ (remove_width_comments cfg = true -> Str.startswith ";WIDTH" c = false).
Proof.
  intros H. apply (loop_output cfg lines loop_init st); [| exact H].
  intros g0 [].
Qed.

Lemma output_commands_are_well_formed_witness :
  exists c,
    Gcode.command
      (Gcode.mk (Some "G1")
         [Param.mk "X" (Some (PyInt 20))] true true None None (Some 1%nat))
    = Some c /\ c <> "G0".
Proof.
  destruct (output_commands_are_well_formed (rt := Decimal.runtime)
              default_config ["G0 X20"] _
              (Gcode.mk (Some "G1")
                 [Param.mk "X" (Some (PyInt 20))] true true None None
                 (Some 1%nat))
              ltac:(vm_compute; reflexivity)
              ltac:(left; reflexivity)) as (c & Hc & H0 & _).
  exists c. split; [exact Hc | exact (H0 eq_refl)].
Defined.

(** ** Travel moves with the settling frozen *)

(** X16.  Under [freeze_settle_on_travel] a [G0] line leaves the
    accumulator and the warnings as they were. *)
Theorem frozen_travel_keeps_settling {rt : PyRuntime} (cfg : Config)
    (st st' : Loop) (line : string) (g : Gcode.t) :
  freeze_settle_on_travel cfg = true ->
  parse_gcode_line line (last_state st) = Ok g ->
  Gcode.command g = Some "G0" ->
  loop_body cfg st line = Ok st' ->
  settling_current st' = settling_current st /\ warnings st' = warnings st.
Proof.
  intros Hf Hp Hc H. apply loop_body_inv in H.
  destruct H as (g0 & Hp0 & [[_ ->] | (_ & ns & out & _ & Hout & ->)]);
    [split; reflexivity |].
  rewrite Hp in Hp0. inversion Hp0. subst g0. clear Hp0.
  assert (Hm : apply_modes cfg g = g) by (literal_command g Hc; reflexivity).
  rewrite Hm in Hout. destruct out as [[[g' s'] app] w].
  unfold advance. simpl.
  assert (Hs : s' = settling_current st /\ w = []).
  { unfold rewrite_command, convert_travel, motion in Hout.
    literal_command g Hc. simpl in Hout.
    destruct (use_for_travel_moves cfg); simpl in Hout.
    - destruct pv as [prev |]; [| inversion Hout; auto].
      destruct (Gcode.get_param "X" _); [| inversion Hout; auto].
      eapply compensate_frozen; eassumption.
    - inversion Hout. auto. }
  destruct Hs as [-> ->]. rewrite app_nil_r. split; reflexivity.
Qed.

Lemma frozen_travel_keeps_settling_witness :
  exists st',
    loop_body (rt := Decimal.runtime) frozen_config
      (mkLoop [] LayerNone LayerNone (Some origin) 2 (PyFloat (1 # 10)) 1 [])
      "G0 X20" = Ok st'
    /\ settling_current st' = PyFloat (1 # 10).
Proof.
  eexists. split; [vm_compute; reflexivity |].
  apply (proj1 (frozen_travel_keeps_settling (rt := Decimal.runtime)
                  frozen_config
                  (mkLoop [] LayerNone LayerNone (Some origin) 2
                     (PyFloat (1 # 10)) 1 [])
                  _ "G0 X20"
                  (Gcode.mk (Some "G0") [Param.mk "X" (Some (PyInt 20))]
                     true true None (Some origin) None)
                  eq_refl eq_refl eq_refl ltac:(vm_compute; reflexivity))).
Defined.


(** ** Full flow *)

(** X22.  Under [force_full_flow] an [M221] line goes to the output with
    [S] set to 100, its other parameters as parsed. *)
Theorem full_flow_rewrites_M221 {rt : PyRuntime} (cfg : Config) (st : Loop)
    (line : string) (g : Gcode.t) :
  force_full_flow cfg = true ->
  parse_gcode_line line (last_state st) = Ok g ->
  Gcode.command g = Some "M221" ->
  exists st' g',
    loop_body cfg st line = Ok st'
    /\ gcodes st' = (gcodes st ++ [ItemGcode g'])%list
    /\ Gcode.command g' = Some "M221"
    /\ Gcode.get_param "S" g' = Some (PyInt 100)
    /\ (forall m, String.eqb m "S" = false ->
                  Gcode.get_param m g' = Gcode.get_param m g)
    /\ settling_current st' = settling_current st.
Proof.
  intros Hf Hp Hc. rewrite loop_body_eq, Hp. simpl.
  assert (Hm : apply_modes cfg g
               = Gcode.set_param "S" (Some (PyInt 100)) g).
  { unfold apply_modes. literal_command g Hc. simpl. now rewrite Hf. }
  rewrite Hm.
  pose proof (get_param_set_param "S" (Some (PyInt 100)) g) as Hget.
  assert (Hother : forall m, String.eqb m "S" = false ->
             Gcode.get_param m (Gcode.set_param "S" (Some (PyInt 100)) g)
             = Gcode.get_param m g).
  { intros m. apply get_param_set_param_other. }
  pose proof (command_set_param "S" (Some (PyInt 100)) g) as Hcmd.
  rewrite Hc in Hcmd.
  set (gS := Gcode.set_param "S" (Some (PyInt 100)) g) in *. clearbody gS.
  destruct gS as [c ps ma ea cm pv nl]. simpl in Hcmd. inversion Hcmd. subst c.
  unfold skipped. simpl. rewrite andb_false_r.
  unfold Gcode.state. simpl.
  replace (Gcode.is_G123 (Gcode.mk (Some "M221") ps ma ea cm pv nl))
    with false by reflexivity.
  replace (Gcode.command_is "G0" (Gcode.mk (Some "M221") ps ma ea cm pv nl))
    with false by reflexivity.
  simpl.
  eexists. eexists. split; [reflexivity |]. simpl.
  repeat split; try reflexivity; assumption.
Qed.

Lemma full_flow_rewrites_M221_witness :
  exists st' g',
    loop_body (rt := Decimal.runtime) full_flow_config after_G90 "M221 S95"
    = Ok st'
    /\ gcodes st' = (gcodes after_G90 ++ [ItemGcode g'])%list
    /\ Gcode.get_param "S" g' = Some (PyInt 100)
    /\ fst (Gcode.__str__ (rt := Decimal.runtime) g') = "M221 S100".
Proof.
  destruct (full_flow_rewrites_M221 (rt := Decimal.runtime) full_flow_config
              after_G90 "M221 S95"
              (Gcode.mk (Some "M221") [Param.mk "S" (Some (PyInt 95))]
                 true true None (Some origin) None)
              eq_refl eq_refl eq_refl)
    as (st' & g' & H1 & H2 & _ & H4 & _).
  exists st', g'. split; [exact H1 |]. split; [exact H2 |].
  split; [exact H4 |].
  vm_compute in H1. inversion H1. subst st'. vm_compute in H2.
  inversion H2. vm_compute. reflexivity.
Defined.

(** ** Width comments *)

(** X23.  Under [remove_width_comments] a line whose stripped text starts
    with [;WIDTH] leaves the loop variables untouched: nothing is output
    and no line number is used. *)
Theorem width_comment_is_dropped {rt : PyRuntime} (cfg : Config) (st : Loop)
    (line : string) :
  remove_width_comments cfg = true ->
  Str.startswith ";WIDTH" (Str.strip line) = true ->
  loop_body cfg st line = Ok st.
Proof.
  intros Hr Hw.
  assert (Hsemi : Str.startswith ";" (Str.strip line) = true).
  { apply startswith_append in Hw. rewrite Hw. reflexivity. }
  rewrite loop_body_eq, (parse_comment line (last_state st) Hsemi). simpl.
  apply startswith_append in Hw. rewrite Hw. simpl.
  unfold skipped, apply_modes.
  destruct (last_state st); simpl; rewrite Hr; reflexivity.
Qed.

Lemma width_comment_is_dropped_witness :
  loop_body (rt := Decimal.runtime) default_config after_G90 ";WIDTH:0.45"
  = Ok after_G90.
Proof.
  exact (width_comment_is_dropped (rt := Decimal.runtime) default_config
           after_G90 ";WIDTH:0.45" eq_refl eq_refl).
Defined.

(** ** A zero settling bound *)

(** X15.  With [max_settling_positive] at zero, as shipped, the
    accumulator is zero after any pass. *)
Theorem zero_bound_disables_settling {rt : PyRuntime} (cfg : Config)
    (lines : list string) (st : Loop) :
  (0 <= to_Q (settling_positive cfg))%Q ->
  (0 <= to_Q (settling_negative cfg))%Q ->
  (to_Q (max_settling_positive cfg) == 0)%Q ->
  run cfg lines = Ok st ->
  (to_Q (settling_current st) == 0)%Q.
Proof.
  intros Hp Hn Hz H.
  assert (Hb : (0 <= to_Q (max_settling_positive cfg))%Q) by (rewrite Hz; lra).
  assert (Hs : settled cfg st).
  { eapply (loop_settled cfg Hp Hn Hb); [| exact H].
    split; [split |]; simpl; [lra | exact Hb | reflexivity]. }
  destruct Hs as [[Hlo Hhi] _]. rewrite Hz in Hhi. lra.
Qed.

Lemma zero_bound_disables_settling_witness :
  exists st,
    run (rt := Decimal.runtime) default_config
      ["G90"; "G1 X50 E1"; "G1 X20 E1"] = Ok st
    /\ (to_Q (settling_current st) == 0)%Q.
Proof.
  eexists. split; [vm_compute; reflexivity |].
  apply (zero_bound_disables_settling (rt := Decimal.runtime) default_config
           ["G90"; "G1 X50 E1"; "G1 X20 E1"]).
  - vm_compute. discriminate.
  - vm_compute. discriminate.
  - reflexivity.
  - vm_compute. reflexivity.
Defined.

(** ** Clones *)

Lemma map_clone (ps : list Param.t) : map Param.clone ps = ps.
Proof.
  induction ps as [| [n v] ps IH]; simpl; [| rewrite IH]; reflexivity.
Qed.

Lemma clone_fields (g : Gcode.t) :
  Gcode.clone g
  = Gcode.set_previous_state
      (Some (match Gcode.previous_state g with
             | None => State.init
             | Some ps => ps
             end)) g.
Proof.
  unfold Gcode.clone. destruct g as [c ps ma ea cm pv nl]. simpl.
  rewrite map_clone. destruct pv, nl; reflexivity.
Qed.

Lemma str_set_previous_state {rt : PyRuntime} (s : option State.t)
    (g : Gcode.t) :
  fst (Gcode.__str__ (Gcode.set_previous_state s g)) = fst (Gcode.__str__ g).
Proof.
  rewrite !str_unfold. cbn [fst].
  change (str_loop (Gcode.set_previous_state s g)) with (str_loop g).
  reflexivity.
Qed.

(** X24.  A clone is rendered like the original.  The clone of a command
    without previous state holds a fresh [State()], so that its [state]
    has no [X] where the original has [X = 0]. *)
Theorem clone_keeps_text_not_origin {rt : PyRuntime} (cfg : Config)
    (g : Gcode.t) :
  fst (Gcode.__str__ (Gcode.clone g)) = fst (Gcode.__str__ g)
  /\ (Gcode.previous_state g = None ->
      processed cfg g = false ->
      exists s s',
        Gcode.state cfg g = Ok s /\ State.X s = Some (PyInt 0)
        /\ Gcode.state cfg (Gcode.clone g) = Ok s' /\ State.X s' = None).
Proof.
  rewrite clone_fields. split; [apply str_set_previous_state |].
  intros Hp Hn. unfold Gcode.state. rewrite Hp. simpl.
  unfold processed in Hn.
  change (Gcode.is_G123 (Gcode.set_previous_state (Some State.init) g))
    with (Gcode.is_G123 g).
  change (Gcode.command_is "G0" (Gcode.set_previous_state (Some State.init) g))
    with (Gcode.command_is "G0" g).
  rewrite Hn. simpl. eexists. eexists. repeat split.
Qed.

Lemma clone_keeps_text_not_origin_witness :
  exists s',
    Gcode.state default_config
      (Gcode.clone (Gcode.mk (Some "G90") [] true true None None (Some 1%nat)))
    = Ok s'
    /\ State.X s' = None.
Proof.
  destruct (proj2 (clone_keeps_text_not_origin (rt := Decimal.runtime)
                     default_config
                     (Gcode.mk (Some "G90") [] true true None None
                        (Some 1%nat)))
              eq_refl eq_refl) as (s & s' & _ & _ & H3 & H4).
  exists s'. split; [exact H3 | exact H4].
Defined.


Lemma append_length (a b : string) :
  String.length (a ++ b) = (String.length a + String.length b)%nat.
Proof. induction a as [| c a IH]; simpl; [| rewrite IH]; reflexivity. Qed.

Lemma strip_gcode_extension_length (path : string) :
  (String.length path <= String.length (strip_gcode_extension path) + 6)%nat.
Proof.
  induction path as [| c rest IH]; [simpl; lia |].
  cbn [strip_gcode_extension].
  destruct (String.eqb (String c rest) ".gcode") eqn:H1.
  - apply String.eqb_eq in H1. rewrite H1. simpl. lia.
  - destruct (String.eqb (String c rest) (".gcode" ++ String Str.nl "")) eqn:H2.
    + apply String.eqb_eq in H2. rewrite H2. simpl. lia.
    + simpl. lia.
Qed.

Lemma strip_gcode_extension_suffix (base : string) :
  strip_gcode_extension (base ++ ".gcode") = base.
Proof.
  induction base as [| c base IH]; [reflexivity |].
  change (String c base ++ ".gcode") with (String c (base ++ ".gcode")).
  cbn [strip_gcode_extension].
  destruct (String.eqb (String c (base ++ ".gcode")) ".gcode") eqn:H1.
  - apply String.eqb_eq in H1. apply (f_equal String.length) in H1.
    simpl in H1. rewrite append_length in H1. simpl in H1. lia.
  - destruct (String.eqb (String c (base ++ ".gcode"))
                (".gcode" ++ String Str.nl "")) eqn:H2.
    + apply String.eqb_eq in H2. pose proof (f_equal String.length H2) as HL.
      simpl in HL. rewrite append_length in HL. simpl in HL.
      destruct base as [| d base]; [| simpl in HL; lia].
      simpl in H2. inversion H2.
    + rewrite IH. reflexivity.
Qed.

(** X25.  Without [SLIC3R_PP_OUTPUT_NAME] the output path is never the
    input path, and a final [.gcode] is replaced by [_wack2.gcode]. *)
Theorem destination_is_a_new_path {rt : PyRuntime} (file_path : string) :
  getenv "SLIC3R_PP_OUTPUT_NAME" = None ->
  destination file_path <> file_path
  /\ (forall base, file_path = base ++ ".gcode" ->
                   destination file_path = base ++ "_wack2.gcode").
Proof.
  intros He. unfold destination. rewrite He. split.
  - intros H. apply (f_equal String.length) in H.
    rewrite append_length in H. simpl in H.
    pose proof (strip_gcode_extension_length file_path). lia.
  - intros base ->. now rewrite strip_gcode_extension_suffix.
Qed.

Lemma destination_is_a_new_path_witness :
  destination (rt := Decimal.runtime) "parts/benchy.gcode"
  = "parts/benchy_wack2.gcode".
Proof.
  exact (proj2 (destination_is_a_new_path (rt := Decimal.runtime)
                  "parts/benchy.gcode" eq_refl) "parts/benchy" eq_refl).
Defined.

(* ------------------------------------------------------------------ *)
(** * The output line by line, and the tracked state *)

(** ** C2: the lines that reach the output, in order *)







Section LinesInOrder.

Context {rt : PyRuntime}.



End LinesInOrder.



Section CommandsInOrder.

Context {rt : PyRuntime}.






End CommandsInOrder.



(** ** C4: absolute and relative positioning *)










Section AfterG91.

Context {rt : PyRuntime}.


End AfterG91.


